(** * Daily Streak Tracker: a shallow embedding of [streak_app.py]

    The tracker keeps one row per calendar day, [date] (the ISO text of the
    day) and [count] (the outreaches recorded for it), in a pandas frame
    that lives in the Streamlit session and is rewritten to
    [streak_data.csv] after every change.  This file embeds the data
    handling of the script: loading and saving, [init_data], the weekly
    sum, the streak loop of [main], the callbacks behind the + and -
    buttons and the monthly calendar. *)

From Stdlib Require Import ZArith Lia Ascii String DecimalString DecimalZ.
From stdpp Require Import base option list strings gmap.

Open Scope Z_scope.

(** ** Rows and frames *)

(** One row of the frame.  The two columns are always [date] and [count],
    in that order.  The [count] column holds signed 64-bit integers, as
    pandas reads it from the file: a count is an integer from [int64_min]
    to [int64_max], and arithmetic on the column wraps around ([wrap64]). *)
Record DayRecord := mkRow { date : string; count : Z }.

(** The frame: its rows in stored order.  The index is the default range
    index, so the label of a row is its position. *)
Abbreviation Table := (list DayRecord).

#[global] Instance DayRecord_eq_dec : EqDecision DayRecord.
Proof. solve_decision. Defined.

(** [df["date"].values] and [df["count"]]. *)
Definition dates (df : Table) : list string := date <$> df.
Definition counts_column (df : Table) : list Z := count <$> df.

(** The daily goal. *)
Definition met (n : Z) : bool := 10 <=? n.

(** ** 64-bit integers *)

Definition int64_min : Z := - 2 ^ 63.
Definition int64_max : Z := 2 ^ 63 - 1.

(** The value a result takes in a signed 64-bit integer: the result modulo
    2^64, from [int64_min] to [int64_max]. *)
Definition wrap64 (z : Z) : Z := (z - int64_min) mod 2 ^ 64 + int64_min.

(** The sum of a list of integers, without any bound. *)
Definition sum_of (s : list Z) : Z := foldr Z.add 0 s.

(** ** Aggregation *)

(** [df.tail(n)] is [df.iloc[-n:]]: the slice starts at [max (len - n) 0]. *)
Definition tail (n : nat) (df : Table) : Table :=
  drop (length df - n)%nat df.

(** [Series.sum()] on a column of 64-bit integers: the sum wraps around;
    the sum of no value is 0. *)
Definition series_sum (s : list Z) : Z := wrap64 (sum_of s).

(** [compute_weekly_count(df)]: [df.tail(7)["count"].sum()]. *)
Definition compute_weekly_count (df : Table) : Z :=
  series_sum (counts_column (tail 7 df)).

(** The streak loop of [main]:
<<
    consecutive_streak = 0
    for _, day_row in df.iloc[::-1].iterrows():
        if day_row["count"] >= 10: consecutive_streak += 1
        else: break
>>
    [streak_loop rows acc] runs the loop over the rows still to visit. *)
Fixpoint streak_loop (rows : list DayRecord) (consecutive_streak : Z) : Z :=
  match rows with
  | [] => consecutive_streak
  | day_row :: rest =>
      if met (count day_row)
      then streak_loop rest (consecutive_streak + 1)
      else consecutive_streak
  end.

Definition consecutive_streak (df : Table) : Z :=
  streak_loop (reverse df) 0.

(** The wording of the specification for the weekly total: the last [k]
    rows of the table, in stored order. *)
Definition last_rows (k : nat) (df : Table) : Table :=
  reverse (take k (reverse df)).

Definition weekly_total_spec (df : Table) : Z :=
  sum_of (counts_column (last_rows (Nat.min 7 (length df)) df)).

(** ** Text *)

Definition nl : string := String "010"%char EmptyString.
Definition dq : string := String "034"%char EmptyString.
Definition comma : ascii := ","%char.
Definition newline : ascii := "010"%char.

(** The join of strings on the empty separator. *)
Definition concat_str (l : list string) : string :=
  foldr String.append EmptyString l.

(** [str(n)] for a Python integer: decimal digits, a minus sign in front
    of a negative number. *)
Definition str (n : Z) : string := NilZero.string_of_int (Z.to_int n).

(** [s.zfill(w)] for a string of digits. *)
Definition zfill (w : nat) (s : string) : string :=
  concat_str (replicate (w - String.length s)%nat "0"%string) +:+ s.

(** The format [0wd]: zero padding between the sign and the digits, up to
    a total width of [w]; [f"{5:02d}"] is [05], [f"{-5:02d}"] is [-5]. *)
Definition format_0d (w : nat) (n : Z) : string :=
  if n <? 0 then "-" +:+ zfill (w - 1) (str (- n)) else zfill w (str n).

(** [s.split(sep)]. *)
Fixpoint split_on (sep : ascii) (s : string) : list string :=
  match s with
  | EmptyString => [EmptyString]
  | String c s' =>
      if Ascii.eqb c sep then EmptyString :: split_on sep s'
      else match split_on sep s' with
           | [] => [String c EmptyString]
           | t :: ts => String c t :: ts
           end
  end.

(** [c in s]. *)
Fixpoint contains (c : ascii) (s : string) : bool :=
  match s with
  | EmptyString => false
  | String a s' => (Ascii.eqb a c || contains c s')%bool
  end.

Definition is_digit (c : ascii) : bool :=
  (Ascii.leb "0" c && Ascii.leb c "9")%bool.

(** The shape that [date.isoformat()] writes: [YYYY-MM-DD]. *)
Definition is_iso_date (s : string) : bool :=
  match s with
  | String y1 (String y2 (String y3 (String y4 (String h1
      (String m1 (String m2 (String h2 (String d1 (String d2 EmptyString))))))))) =>
      (is_digit y1 && is_digit y2 && is_digit y3 && is_digit y4
       && Ascii.eqb h1 "-" && is_digit m1 && is_digit m2
       && Ascii.eqb h2 "-" && is_digit d1 && is_digit d2)%bool
  | _ => false
  end.

(** ** Dates from the clock *)

(** A [datetime.date]. *)
Record pydate := mkDate { year : Z; month : Z; day : Z }.

(** [d.isoformat()]: ["%04d-%02d-%02d" % (year, month, day)]. *)
Definition isoformat (d : pydate) : string :=
  format_0d 4 (year d) +:+ "-" +:+ format_0d 2 (month d) +:+ "-" +:+ format_0d 2 (day d).

(** ** Exceptions *)

Inductive exn :=
| FileNotFoundError
| EmptyDataError
| KeyError
| IndexError
| IllegalMonthError
| OutOfModel.

Inductive Result (A : Type) :=
| Ok (a : A)
| Raise (e : exn).
Arguments Ok {A} a.
Arguments Raise {A} e.

(** ** The CSV file *)

(** One line of [df.to_csv(DATA_FILE, index=False)], without its end.  No
    field of the rows this program writes needs quoting. *)
Definition csv_fields (r : DayRecord) : string :=
  date r +:+ "," +:+ str (count r).

Definition csv_line (r : DayRecord) : string := csv_fields r +:+ nl.

Definition csv_header : string := "date,count".

(** [df.to_csv(index=False)]: the header line, then one line per row. *)
Definition to_csv (df : Table) : string :=
  csv_header +:+ nl +:+ concat_str (map csv_line df).

(** An integer field as the reader accepts it here: the decimal text of a
    64-bit integer, exactly as [str] writes it. *)
Definition parse_count (tok : string) : option Z :=
  match NilZero.int_of_string tok with
  | Some i =>
      let z := Z.of_int i in
      if (String.eqb (str z) tok && (int64_min <=? z) && (z <=? int64_max))%bool
      then Some z else None
  | None => None
  end.

(** One data line: a date field that stays text and an integer field. *)
Definition parse_line (line : string) : option DayRecord :=
  match split_on comma line with
  | [d; c] =>
      if is_iso_date d
      then match parse_count c with
           | Some z => Some (mkRow d z)
           | None => None
           end
      else None
  | _ => None
  end.

Fixpoint parse_lines (lines : list string) : option Table :=
  match lines with
  | [] => Some []
  | l :: ls =>
      match parse_line l, parse_lines ls with
      | Some r, Some rs => Some (r :: rs)
      | _, _ => None
      end
  end.

(** [pd.read_csv] on the text of a file.  A file of no bytes has no
    columns to parse and raises [EmptyDataError].  Blank lines are skipped.
    The reader is modelled on files whose first line is [date,count] and
    whose other lines hold a [YYYY-MM-DD] date and a 64-bit integer; on any
    other text the model stops with [OutOfModel]. *)
Definition read_csv_text (text : string) : Result Table :=
  if String.eqb text EmptyString then Raise EmptyDataError
  else
    match filter (λ l, l ≠ EmptyString) (split_on newline text) with
    | header :: body =>
        if String.eqb header csv_header
        then match parse_lines body with
             | Some df => Ok df
             | None => Raise OutOfModel
             end
        else Raise OutOfModel
    | [] => Raise OutOfModel
    end.

(** [pd.read_csv(DATA_FILE)] on the file system: [None] is no file. *)
Definition read_csv (file : option string) : Result Table :=
  match file with
  | None => Raise FileNotFoundError
  | Some text => read_csv_text text
  end.

(** ** The session, the file and what the user sees *)

(** What a run shows or writes, oldest first. *)
Inductive Event :=
| Balloons
| Warning (msg : string)
| WroteFile (text : string).

(** [st.session_state] holds the keys [data], [today] and [count] once
    they are set; [data_file] is the content of [streak_data.csv], [None]
    while there is no such file. *)
Record World := mkWorld {
  ss_data : option Table;
  ss_today : option string;
  ss_count : option Z;
  data_file : option string;
  events : list Event
}.

(** A computation reads and changes the world and returns or raises; what
    it changed before raising stays changed. *)
Definition M (A : Type) : Type := World → Result A * World.

Definition ret {A} (a : A) : M A := λ w, (Ok a, w).
Definition raise {A} (e : exn) : M A := λ w, (Raise e, w).
Definition bind {A B} (m : M A) (k : A → M B) : M B :=
  λ w, match m w with
       | (Ok a, w') => k a w'
       | (Raise e, w') => (Raise e, w')
       end.
Definition try_except {A} (m : M A) (handler : exn → M A) : M A :=
  λ w, match m w with
       | (Ok a, w') => (Ok a, w')
       | (Raise e, w') => handler e w'
       end.
Definition when (b : bool) (m : M unit) : M unit := if b then m else ret tt.

Notation "'do' x <- m ; k" := (bind m (λ x, k))
  (at level 10, x name, m at level 100, k at level 200).
Notation "m ;; k" := (bind m (λ _, k))
  (at level 100, k at level 200, right associativity).

Definition exec {A} (m : M A) (w : World) : World := snd (m w).

(** Reading a key of the session raises [KeyError] while it is not set. *)
Definition get_key {A} (field : World → option A) : M A :=
  λ w, match field w with
       | Some a => (Ok a, w)
       | None => (Raise KeyError, w)
       end.
Definition has_key {A} (field : World → option A) : M bool :=
  λ w, (Ok (bool_decide (is_Some (field w))), w).

Definition set_data (df : Table) : M unit :=
  λ w, (Ok tt, mkWorld (Some df) (ss_today w) (ss_count w) (data_file w) (events w)).
Definition set_today (s : string) : M unit :=
  λ w, (Ok tt, mkWorld (ss_data w) (Some s) (ss_count w) (data_file w) (events w)).
Definition set_count (n : Z) : M unit :=
  λ w, (Ok tt, mkWorld (ss_data w) (ss_today w) (Some n) (data_file w) (events w)).
Definition emit (e : Event) : M unit :=
  λ w, (Ok tt, mkWorld (ss_data w) (ss_today w) (ss_count w) (data_file w) (events w ++ [e])).
Definition write_file (text : string) : M unit :=
  λ w, (Ok tt, mkWorld (ss_data w) (ss_today w) (ss_count w) (Some text)
                 (events w ++ [WroteFile text])).

(** [df.at[row_idx, column]]: [KeyError] for a label that is not in the
    index. *)
Definition at_row (df : Table) (row_idx : nat) : M DayRecord :=
  match df !! row_idx with
  | Some r => ret r
  | None => raise KeyError
  end.

(** ** Loading and saving *)

(** [load_data()]. *)
Definition load_data : M Table :=
  try_except (λ w, (read_csv (data_file w), w))
    (λ e, match e with
          | EmptyDataError | FileNotFoundError => ret []
          | _ => raise e
          end).

(** [save_data(df)]. *)
Definition save_data (df : Table) : M unit := write_file (to_csv df).

(** The table [init_data] starts from: the one of the session, or on the
    first run of a session the one [load_data] returns. *)
Definition table_on_entry (w : World) : Result Table :=
  match ss_data w with
  | Some df => Ok df
  | None => fst (load_data w)
  end.

(** The world with [df] as the table of the session. *)
Definition with_data (df : Table) (w : World) : World :=
  mkWorld (Some df) (ss_today w) (ss_count w) (data_file w) (events w).

(** The row that [init_data] appends for a day without one. *)
Definition new_row (today_str : string) : DayRecord := mkRow today_str 0.

(** [df.index[df["date"] == today]]: the labels of the rows of that day. *)
Definition index_where (today : string) (df : Table) : list nat :=
  (filter (λ ir, date ir.2 = today) (imap (λ i r, (i, r)) df)).*1.

(** [init_data()], with [now] the day [datetime.date.today()] returns. *)
Definition init_data (now : pydate) : M unit :=
  do has_data <- has_key ss_data;
  when (negb has_data) (do df <- load_data; set_data df);;
  let today_str := isoformat now in
  do df <- get_key ss_data;
  when (negb (bool_decide (today_str ∈ dates df)))
       (set_data (df ++ [new_row today_str]));;
  do has_today <- has_key ss_today;
  when (negb has_today) (set_today today_str);;
  do has_count <- has_key ss_count;
  when (negb has_count)
       (do df <- get_key ss_data;
        do today <- get_key ss_today;
        match index_where today df with
        | idx :: _ => do r <- at_row df idx; set_count (count r)
        | [] => raise IndexError
        end).

(** ** The callbacks of the + and - buttons *)

(** [add_outreach(row_idx)].  [df] is the frame of the session itself, so
    the assignment to [df.at[row_idx, "count"]] is seen through
    [st.session_state["data"]] and by [save_data(df)].  The [+= 1] is done
    in the 64-bit integers of the column: at [int64_max] it wraps around to
    [int64_min]. *)
Definition add_outreach (row_idx : nat) : M unit :=
  do df <- get_key ss_data;
  do r <- at_row df row_idx;
  let df := <[row_idx := mkRow (date r) (wrap64 (count r + 1))]> df in
  set_data df;;
  do r <- at_row df row_idx;
  do today <- get_key ss_today;
  when (bool_decide (date r = today))
       (set_count (count r);;
        do c <- get_key ss_count;
        when (c =? 10) (emit Balloons));;
  save_data df.

Definition warning_text : string := "Count is already 0. Can't remove more.".

(** [remove_outreach(row_idx)].  The [-= 1] is done only on a positive
    count, so it cannot wrap around. *)
Definition remove_outreach (row_idx : nat) : M unit :=
  do df <- get_key ss_data;
  do r <- at_row df row_idx;
  if 0 <? count r then
    let df := <[row_idx := mkRow (date r) (count r - 1)]> df in
    set_data df;;
    do r <- at_row df row_idx;
    do today <- get_key ss_today;
    when (bool_decide (date r = today)) (set_count (count r));;
    save_data df
  else
    emit (Warning warning_text).

(** ** The calendar of the standard library *)

(** [calendar.isleap(year)]. *)
Definition isleap (y : Z) : bool :=
  ((y mod 4 =? 0) && (negb (y mod 100 =? 0) || (y mod 400 =? 0)))%bool.

(** [calendar.mdays]. *)
Definition mdays : list Z := [0; 31; 28; 31; 30; 31; 30; 31; 31; 30; 31; 30; 31].

(** [datetime._DAYS_BEFORE_MONTH], without its unused first entry. *)
Definition DAYS_BEFORE_MONTH : list Z :=
  [0; 0; 31; 59; 90; 120; 151; 181; 212; 243; 273; 304; 334].

Definition days_before_year (y : Z) : Z :=
  let y1 := y - 1 in y1 * 365 + y1 / 4 - y1 / 100 + y1 / 400.

Definition days_before_month (y m : Z) : Z :=
  DAYS_BEFORE_MONTH !!! Z.to_nat m + (if ((2 <? m) && isleap y)%bool then 1 else 0).

(** [date(y, m, d).toordinal()]. *)
Definition ymd2ord (y m d : Z) : Z :=
  days_before_year y + days_before_month y m + d.

(** [calendar.weekday(year, month, day)]: 0 is Monday, 6 is Sunday.  A
    year outside [1, 9999] is first moved into the same place of the
    400-year cycle. *)
Definition weekday (y m d : Z) : Z :=
  let y := if ((1 <=? y) && (y <=? 9999))%bool then y else 2000 + y mod 400 in
  (ymd2ord y m d + 6) mod 7.

(** [calendar.monthrange(year, month)]: the weekday of the first of the
    month and the number of its days. *)
Definition monthrange (y m : Z) : Result (Z * Z) :=
  if negb ((1 <=? m) && (m <=? 12))%bool then Raise IllegalMonthError
  else
    let day1 := weekday y m 1 in
    let ndays := mdays !!! Z.to_nat m + (if ((m =? 2) && isleap y)%bool then 1 else 0) in
    Ok (day1, ndays).

(** [Calendar.itermonthdays], with [firstweekday = 0]: zeros for the days
    of the first week before the month, the days, zeros for the rest of
    the last week. *)
Definition itermonthdays (y m : Z) : Result (list Z) :=
  match monthrange y m with
  | Raise e => Raise e
  | Ok (day1, ndays) =>
      let days_before := (day1 - 0) mod 7 in
      let days_after := (0 - day1 - ndays) mod 7 in
      Ok (replicate (Z.to_nat days_before) 0
          ++ seqZ 1 ndays
          ++ replicate (Z.to_nat days_after) 0)
  end.

(** [[days[i:i+7] for i in range(0, len(days), 7)]]. *)
Definition weeks_of (days : list Z) : list (list Z) :=
  map (λ k, take 7 (drop (7 * k) days)) (seq 0 ((length days + 6) / 7)%nat).

(** [calendar.monthcalendar(year, month)]. *)
Definition monthcalendar (y m : Z) : Result (list (list Z)) :=
  match itermonthdays y m with
  | Raise e => Raise e
  | Ok days => Ok (weeks_of days)
  end.

(** ** The monthly calendar *)

(** The dictionary [counts] of [render_monthly_calendar]: rows are entered
    in stored order, so the last row of a date is the one that stays. *)
Definition counts_of (df : Table) : gmap string Z :=
  foldl (λ counts row, <[date row := count row]> counts) ∅ df.

(** [f"{year}-{month:02d}-{day:02d}"]. *)
Definition date_str (y m d : Z) : string :=
  str y +:+ "-" +:+ format_0d 2 m +:+ "-" +:+ format_0d 2 d.

(** [counts.get(date_str, 0)]. *)
Definition day_count (counts : gmap string Z) (y m d : Z) : Z :=
  default 0 (counts !! date_str y m d).

Definition checkmark : string := "‚úì".
Definition calendar_title : string := "üìÖ Monthly Calendar".

Definition td_empty_day : string := "<td class='empty-day'></td>".
Definition td_filled (d : Z) : string :=
  "<td class='filled-cell'>" +:+ "<span class='day-num'>" +:+ str d +:+ "</span>"
  +:+ "<span class='checkmark'>" +:+ checkmark +:+ "</span>" +:+ "</td>".
Definition td_normal (d : Z) : string :=
  "<td class='empty-cell'>" +:+ str d +:+ "</td>".

(** The text one slot of a week adds to [html]. *)
Definition day_html (counts : gmap string Z) (y m d : Z) : string :=
  if d =? 0 then td_empty_day
  else if met (day_count counts y m d) then td_filled d
  else td_normal d.

Definition day_names : list string := ["Mon"; "Tue"; "Wed"; "Thu"; "Fri"; "Sat"; "Sun"].

Definition html_open : string :=
  nl +:+ "    <div class=" +:+ dq +:+ "calendar-container" +:+ dq +:+ ">" +:+ nl
  +:+ "      <h2>" +:+ calendar_title +:+ "</h2>" +:+ nl
  +:+ "      <table class=" +:+ dq +:+ "calendar-table" +:+ dq +:+ ">" +:+ nl
  +:+ "        <thead>" +:+ nl
  +:+ "          <tr>".

Definition html_close : string :=
  "</tbody></table>"
  +:+ "<p style='margin-top: 0.75rem;'>Hit 10+ outreaches to light up that day with a checkmark!</p>"
  +:+ "</div>".

(** [render_monthly_calendar(df)], with [now] the day
    [datetime.date.today()] returns.  The loops append to [html] as the
    script does. *)
Definition render_monthly_calendar (now : pydate) (df : Table) : Result string :=
  let y := year now in
  let m := month now in
  let counts := counts_of df in
  match monthcalendar y m with
  | Raise e => Raise e
  | Ok cal =>
      let html := html_open in
      let html := foldl (λ html dn, html +:+ "<th>" +:+ dn +:+ "</th>") html day_names in
      let html := html +:+ "</tr></thead><tbody>" in
      let html :=
        foldl (λ html week,
                 let html := html +:+ "<tr>" in
                 let html := foldl (λ html d, html +:+ day_html counts y m d) html week in
                 html +:+ "</tr>")
              html cal in
      let html := html +:+ html_close in
      Ok html
  end.

(** ** The calendar as a grid *)

(** What a slot of the table shows: no day, a day below the goal, or a day
    that met it (the cell with the tick). *)
Inductive cell :=
| EmptyDay
| Pending (d : Z)
| MetDay (d : Z).

#[global] Instance cell_eq_dec : EqDecision cell.
Proof. solve_decision. Defined.

(** The class of a day of the month under the lookup. *)
Definition classify (counts : gmap string Z) (y m d : Z) : cell :=
  if met (day_count counts y m d) then MetDay d else Pending d.

(** The branch the inner loop takes for a slot of [cal]. *)
Definition day_cell (counts : gmap string Z) (y m d : Z) : cell :=
  if d =? 0 then EmptyDay else classify counts y m d.

Definition cell_html (c : cell) : string :=
  match c with
  | EmptyDay => td_empty_day
  | Pending d => td_normal d
  | MetDay d => td_filled d
  end.

(** The grid of cells behind the table: one list per week of [cal]. *)
Definition calendar_grid (y m : Z) (counts : gmap string Z) : Result (list (list cell)) :=
  match monthcalendar y m with
  | Raise e => Raise e
  | Ok cal => Ok (map (map (day_cell counts y m)) cal)
  end.

(** [html] when the loop over the weeks starts. *)
Definition html_head : string :=
  foldl (λ html dn, html +:+ "<th>" +:+ dn +:+ "</th>") html_open day_names
  +:+ "</tr></thead><tbody>".

Definition week_html (week : list cell) : string :=
  "<tr>" +:+ concat_str (map cell_html week) +:+ "</tr>".

(** The page text of a grid. *)
Definition grid_html (grid : list (list cell)) : string :=
  html_head +:+ concat_str (map week_html grid) +:+ html_close.


(** ** Well-formed tables and the invariant of the store *)

(** A row as the program writes it: the date in the [YYYY-MM-DD] form of
    [isoformat] and the count a 64-bit integer. *)
Definition well_formed_row (r : DayRecord) : Prop :=
  is_iso_date (date r) = true ∧ int64_min ≤ count r ≤ int64_max.

Definition well_formed (df : Table) : Prop := Forall well_formed_row df.

(** No count is negative and no date has two rows. *)
Definition table_inv (df : Table) : Prop :=
  Forall (λ r, 0 ≤ count r) df ∧ NoDup (dates df).

(** The last row of a table, if any. *)
Definition last_row (df : Table) : option DayRecord := last df.

(** ** The session and its table *)

(** The count the session shows is the count of the row of the session's
    day, in a table that has one row per date. *)
Definition session_sync (w : World) : Prop :=
  ∃ T today c,
    ss_data w = Some T ∧ ss_today w = Some today ∧ ss_count w = Some c
    ∧ NoDup (dates T) ∧ mkRow today c ∈ T.

(** ** The page of [main] *)

(** The two callbacks a button can carry. *)
Inductive Callback :=
| OnRemove
| OnAdd.

(** What [main] puts on the page, one entry per call of Streamlit, in the
    order of the calls.  [Columns n] is a call of [st.columns] that opens
    [n] columns (their widths and gaps are left out); [InColumn k w] is the
    call [w] made under [with] for column [k] of the columns opened last.
    [Progress num den] is [st.progress(num / den)]. *)
Inductive Widget :=
| Markdown (body : string)
| Title (body : string)
| Subheader (body : string)
| Write (body : string)
| Info (body : string)
| Success (body : string)
| Progress (num den : Z)
| Snow
| Button (label key : string) (on_click : Callback) (arg : nat)
| ShowTable (df : Table)
| Columns (n : nat)
| InColumn (k : nat) (w : Widget).

Definition main_container_open : string := "<div class=" +:+ dq +:+ "main-container" +:+ dq +:+ ">".
Definition title_text : string := "üöÄ Daily Streak Tracker üöÄ".
Definition section_open : string := "<div class=" +:+ dq +:+ "section" +:+ dq +:+ ">".
Definition today_heading : string := "‚ú® Today‚Äôs Progress".
Definition msg_not_started : string := "You haven't started yet today. Let's go!".
Definition msg_good_start : string := "Good start, keep going!".
Definition msg_halfway : string := "More than halfway there‚Äîstay on it!".
Definition msg_daily_done : string := "You've reached or passed the daily goal‚Äîawesome job!".
Definition div_close : string := "</div>".
Definition weekly_heading : string := "üìÖ Weekly Progress".
Definition msg_week_low : string := "Keep stacking those outreaches for the week!".
Definition msg_week_half : string := "You've crossed halfway‚Äîkeep pushing to 100!".
Definition msg_week_done : string := "You smashed the weekly goal of 100!".
Definition all_days_heading : string := "üóìÔ∏è All Days Overview".
Definition all_days_help : string := "Use the **-** and **+** buttons to remove or add outreaches for each day.".
Definition minus_label : string := "‚àí".
Definition plus_label : string := "+".
Definition past_heading : string := "‚è≥ Past 7 Days Activity".
Definition msg_streak_alive : string := "Keep the streak alive! Great job!".

Definition lift_result {A} (r : Result A) : M A := λ w, (r, w).

(** [st.progress(num / den)] for a positive [den].  Streamlit refuses a
    value outside [0, 1] with an exception of its own, for which the model
    has no name: [OutOfModel]. *)
Definition st_progress (num den : Z) : M Widget :=
  if ((0 <=? num) && (num <=? den))%bool then ret (Progress num den)
  else raise OutOfModel.

(** The message under today's count. *)
Definition daily_notice (today_count : Z) : Widget :=
  if today_count =? 0 then Info msg_not_started
  else if ((1 <=? today_count) && (today_count <? 5))%bool then Info msg_good_start
  else if ((5 <=? today_count) && (today_count <? 10))%bool then Info msg_halfway
  else Success msg_daily_done.

(** The message under the weekly count. *)
Definition weekly_notice (weekly_count : Z) : Widget :=
  if weekly_count <? 50 then Info msg_week_low
  else if ((50 <=? weekly_count) && (weekly_count <? 100))%bool then Info msg_week_half
  else Success msg_week_done.

Definition in_column (k : nat) (ws : list Widget) : list Widget :=
  map (InColumn k) ws.

(** One turn of the loop over [df.iterrows()]: the date, the - button, the
    count and the + button of row [i], in four columns. *)
Definition row_widgets (i : nat) (row : DayRecord) : list Widget :=
  [Columns 4;
   InColumn 0 (Write ("**" +:+ date row +:+ "**"));
   InColumn 1 (Button minus_label ("minus_" +:+ str (Z.of_nat i)) OnRemove i);
   InColumn 2 (Write ("**" +:+ str (count row) +:+ "**"));
   InColumn 3 (Button plus_label ("plus_" +:+ str (Z.of_nat i)) OnAdd i)].

(** [main()].  [now] is the day the clock gives to [init_data] and
    [now_cal] the day it gives to [render_monthly_calendar].  The value is
    the page; a run that raises shows no page here. *)
Definition main (now now_cal : pydate) : M (list Widget) :=
  let page := [Markdown main_container_open; Title title_text] in
  init_data now;;
  do df <- get_key ss_data;
  let page := page ++ [Columns 2] in
  do today_count <- get_key ss_count;
  do today_str <- get_key ss_today;
  do daily_bar <- st_progress (Z.min today_count 10) 10;
  let page :=
    page ++ in_column 0
      [Markdown section_open; Subheader today_heading;
       Write ("**Date**: " +:+ today_str);
       Write ("**Daily Outreach**: " +:+ str today_count +:+ "/10");
       daily_notice today_count; daily_bar; Markdown div_close] in
  let weekly_count := compute_weekly_count df in
  do weekly_bar <- st_progress (Z.min weekly_count 100) 100;
  let page :=
    page ++ in_column 1
      ([Markdown section_open; Subheader weekly_heading;
        Write ("**Weekly Outreach**: " +:+ str weekly_count +:+ "/100");
        weekly_notice weekly_count; weekly_bar]
       ++ (if ((75 <=? weekly_count) && (weekly_count <? 100))%bool
           then [Snow] else [])
       ++ [Markdown div_close]) in
  let page :=
    page ++ [Markdown section_open; Subheader all_days_heading; Write all_days_help]
    ++ concat (imap row_widgets df)
    ++ [Markdown div_close] in
  let last_7_days := tail 7 df in
  let streak := consecutive_streak df in
  do alive <- (if 0 <? streak
               then do c <- get_key ss_count; ret (10 <=? c)
               else ret false);
  let page :=
    page ++ [Markdown section_open; Subheader past_heading; ShowTable last_7_days;
             Write ("**Current Streak:** " +:+ str streak +:+ " days")]
    ++ (if alive then [Success msg_streak_alive] else [])
    ++ [Markdown div_close] in
  do cal_html <- lift_result (render_monthly_calendar now_cal df);
  ret (page ++ [Markdown cal_html; Markdown div_close]).

(** The buttons of a page, in order: key, callback and argument. *)
Fixpoint button_of (w : Widget) : option (string * Callback * nat) :=
  match w with
  | Button _ key on_click arg => Some (key, on_click, arg)
  | InColumn _ w' => button_of w'
  | _ => None
  end.

Definition buttons (page : list Widget) : list (string * Callback * nat) :=
  omap button_of page.

(** A click: Streamlit calls the callback of the button with its argument. *)
Definition click (on_click : Callback) (arg : nat) : M unit :=
  match on_click with
  | OnRemove => remove_outreach arg
  | OnAdd => add_outreach arg
  end.

(** The two buttons of row [i]. *)
Definition row_buttons (i : nat) : list (string * Callback * nat) :=
  [("minus_" +:+ str (Z.of_nat i), OnRemove, i);
   ("plus_" +:+ str (Z.of_nat i), OnAdd, i)].

(** A count so small that seven of them cannot overflow the weekly sum. *)
Definition count_cap : Z := int64_max / 7.

Definition small_count (r : DayRecord) : Prop := 0 ≤ count r ≤ count_cap.

(** A session the page can be drawn from: it shows the count of the row of
    its day, and every count of its table is from 0 to [count_cap]. *)
Definition session_ok (w : World) : Prop :=
  session_sync w ∧ ∃ T, ss_data w = Some T ∧ Forall small_count T.

(** * Properties *)

(** ** The streak *)

Lemma streak_loop_acc rows acc :
  streak_loop rows acc = acc + streak_loop rows 0.
Proof.
  revert acc. induction rows as [|r rest IH]; intros acc; simpl; [lia|].
  destruct (met (count r)); [|lia].
  rewrite (IH (acc + 1)), (IH (0 + 1)). lia.
Qed.

Lemma streak_loop_all_met rows :
  Forall (λ r, met (count r) = true) rows →
  streak_loop rows 0 = Z.of_nat (length rows).
Proof.
  induction 1 as [|r rest Hr _ IH]; simpl; [done|].
  rewrite Hr, streak_loop_acc, IH. lia.
Qed.

Lemma streak_loop_stop rows r rest :
  Forall (λ r, met (count r) = true) rows →
  met (count r) = false →
  streak_loop (rows ++ r :: rest) 0 = Z.of_nat (length rows).
Proof.
  induction 1 as [|r' rows' Hr _ IH]; intros Hstop; simpl.
  - by rewrite Hstop.
  - rewrite Hr, streak_loop_acc, IH by done. lia.
Qed.

(** The rows split into a head and the run of goal-met rows at the end. *)
Lemma trailing_run (df : Table) :
  ∃ pre suf, df = pre ++ suf
    ∧ Forall (λ r, met (count r) = true) suf
    ∧ match last pre with Some r => met (count r) = false | None => True end.
Proof.
  induction df as [|r df IH] using rev_ind.
  - exists [], []. by repeat split.
  - destruct (met (count r)) eqn:Hr.
    + destruct IH as (pre & suf & -> & Hsuf & Hlast).
      exists pre, (suf ++ [r]). rewrite app_assoc. repeat split; [|done].
      apply Forall_app; split; [done|]. by constructor.
    + exists (df ++ [r]), []. rewrite app_nil_r, last_snoc. by repeat split.
Qed.

(** C1: the streak is the number of rows, read from the last one backwards,
    that meet the goal of 10 before the first row below it; four examples.
    Every table splits as [pre ++ suf] with [suf] the run of goal-met rows
    at its end, the row before [suf] (if any) below 10, and the streak the
    length of [suf]. *)
Theorem consecutive_streak_spec :
  (∀ df : Table, ∃ pre suf,
      df = pre ++ suf
      ∧ Forall (λ r, 10 ≤ count r) suf
      ∧ match last_row pre with Some r => count r < 10 | None => True end
      ∧ consecutive_streak df = Z.of_nat (length suf))
  ∧ consecutive_streak [] = 0
  ∧ (∀ d, consecutive_streak [mkRow d 9] = 0)
  ∧ (∀ d1 d2, consecutive_streak [mkRow d1 10; mkRow d2 10] = 2)
  ∧ (∀ d1 d2 d3, consecutive_streak [mkRow d1 10; mkRow d2 5; mkRow d3 10] = 1).
Proof.
  split; [|by repeat split].
  intros df. destruct (trailing_run df) as (pre & suf & -> & Hsuf & Hlast).
  exists pre, suf. split; [done|]. split.
  { eapply Forall_impl; [exact Hsuf|]. intros r Hr. unfold met in Hr. lia. }
  split.
  { unfold last_row. destruct (last pre) as [r|]; [|done]. unfold met in Hlast. lia. }
  unfold consecutive_streak. rewrite reverse_app.
  assert (Hrev : Forall (λ r, met (count r) = true) (reverse suf)).
  { by apply Forall_reverse. }
  destruct pre as [|p pre _] using rev_ind.
  - rewrite reverse_nil, app_nil_r, streak_loop_all_met by done.
    by rewrite length_reverse.
  - rewrite last_snoc in Hlast. rewrite reverse_snoc.
    rewrite streak_loop_stop by done. by rewrite length_reverse.
Qed.

(** ** The weekly total *)

Lemma last_rows_tail (df : Table) :
  last_rows (Nat.min 7 (length df)) df = tail 7 df.
Proof.
  unfold last_rows, tail.
  rewrite take_reverse, reverse_involutive.
  f_equal. lia.
Qed.

Lemma wrap64_range z : int64_min ≤ wrap64 z ≤ int64_max.
Proof.
  unfold wrap64, int64_min, int64_max.
  pose proof (Z.mod_pos_bound (z - - 2 ^ 63) (2 ^ 64) ltac:(lia)). lia.
Qed.

Lemma wrap64_id z : int64_min ≤ z ≤ int64_max → wrap64 z = z.
Proof.
  unfold wrap64, int64_min, int64_max. intros Hz.
  rewrite Z.mod_small by lia. lia.
Qed.

Lemma wrap64_add z k : wrap64 (wrap64 z + k) = wrap64 (z + k).
Proof.
  unfold wrap64. f_equal.
  replace ((z - int64_min) mod 2 ^ 64 + int64_min + k - int64_min)
    with ((z - int64_min) mod 2 ^ 64 + k) by lia.
  rewrite Zplus_mod_idemp_l. f_equal. lia.
Qed.

(** C2 (amended): the weekly total is the sum of [count] over the last
    [min 7 (length df)] rows in stored order, taken in 64-bit integers: it
    is that sum wrapped around, so it is the sum itself whenever the sum is
    a 64-bit integer; for a table of fewer than seven rows the rows summed
    are all the rows. *)
Theorem compute_weekly_count_spec (df : Table) :
  compute_weekly_count df = wrap64 (weekly_total_spec df)
  ∧ (int64_min ≤ weekly_total_spec df ≤ int64_max →
     compute_weekly_count df = weekly_total_spec df)
  ∧ ((length df < 7)%nat → weekly_total_spec df = sum_of (counts_column df)).
Proof.
  assert (Hwrap : compute_weekly_count df = wrap64 (weekly_total_spec df)).
  { unfold compute_weekly_count, weekly_total_spec, series_sum.
    by rewrite last_rows_tail. }
  split; [exact Hwrap|]. split.
  - intros Hfit. rewrite Hwrap. by apply wrap64_id.
  - intros Hlen. unfold weekly_total_spec. rewrite last_rows_tail. unfold tail.
    replace (length df - 7)%nat with 0%nat by lia. by rewrite drop_0.
Qed.

Lemma compute_weekly_count_spec_witness :
  compute_weekly_count [mkRow "2024-06-01" 3; mkRow "2024-06-02" 12] = 15.
Proof.
  rewrite (proj1 (proj2 (compute_weekly_count_spec _))).
  - rewrite (proj2 (proj2 (compute_weekly_count_spec _))); [reflexivity|].
    simpl. lia.
  - vm_compute. split; congruence.
Defined.

(** The claim as it was stated fails where the sum leaves the 64-bit
    integers: two well-formed rows with counts 2^63-1 and 1 have the sum
    2^63, and the weekly total computed is -2^63. *)
Lemma compute_weekly_count_overflow :
  well_formed [mkRow "2024-06-01" (2 ^ 63 - 1); mkRow "2024-06-02" 1]
  ∧ weekly_total_spec [mkRow "2024-06-01" (2 ^ 63 - 1); mkRow "2024-06-02" 1]
    = 2 ^ 63
  ∧ compute_weekly_count [mkRow "2024-06-01" (2 ^ 63 - 1); mkRow "2024-06-02" 1]
    = - 2 ^ 63
  ∧ compute_weekly_count [mkRow "2024-06-01" (2 ^ 63 - 1); mkRow "2024-06-02" 1]
    ≠ weekly_total_spec [mkRow "2024-06-01" (2 ^ 63 - 1); mkRow "2024-06-02" 1].
Proof.
  split; [|split; [|split]].
  - repeat constructor; simpl; vm_compute; congruence.
  - vm_compute. reflexivity.
  - vm_compute. reflexivity.
  - vm_compute. congruence.
Qed.

(** ** [init_data] *)

Ltac run :=
  unfold exec, init_data, add_outreach, remove_outreach, save_data, load_data,
    write_file, try_except, bind, when, has_key, get_key, set_data, set_today,
    set_count, emit, at_row, ret, raise in *;
  simpl in *.

(** On the first run of a session [init_data] goes on from the loaded
    table as it would from that table in the session. *)
Lemma init_data_first_run now w T :
  ss_data w = None → fst (load_data w) = Ok T →
  init_data now w = init_data now (with_data T w).
Proof.
  destruct w as [d t c f e]; simpl; intros ->.
  unfold with_data. run.
  destruct (read_csv f) as [df|[]]; simpl; intros ?; simplify_eq; done.
Qed.

Lemma init_data_entry now w T :
  table_on_entry w = Ok T →
  init_data now w = init_data now (with_data T w)
  ∧ data_file (with_data T w) = data_file w
  ∧ events (with_data T w) = events w.
Proof.
  unfold table_on_entry. intros HT. split; [|done].
  destruct (ss_data w) as [df|] eqn:Hd.
  - injection HT as ->. destruct w; simpl in *. by subst.
  - by apply init_data_first_run.
Qed.

(** The table left in the session by [init_data]; the file and the events
    are as they were. *)
Lemma init_data_session now w T :
  ss_data w = Some T →
  ss_data (exec (init_data now) w)
  = Some (if bool_decide (isoformat now ∈ dates T) then T
          else T ++ [new_row (isoformat now)])
  ∧ data_file (exec (init_data now) w) = data_file w
  ∧ events (exec (init_data now) w) = events w.
Proof.
  destruct w as [d t c f e]; simpl; intros ->.
  run. repeat (case_match; simpl in *; simplify_eq); try done.
Qed.

Lemma init_data_table now w T :
  table_on_entry w = Ok T →
  ss_data (exec (init_data now) w)
  = Some (if bool_decide (isoformat now ∈ dates T) then T
          else T ++ [new_row (isoformat now)])
  ∧ data_file (exec (init_data now) w) = data_file w
  ∧ events (exec (init_data now) w) = events w.
Proof.
  intros HT. destruct (init_data_entry now w T HT) as (Heq & <- & <-).
  unfold exec. rewrite Heq. by apply init_data_session.
Qed.

Lemma today_in_appended (today_str : string) (T : Table) :
  today_str ∈ dates (T ++ [new_row today_str]).
Proof. unfold dates. rewrite fmap_app. simpl. set_solver. Qed.

Lemma init_data_twice_session now w T :
  ss_data w = Some T →
  isoformat now ∉ dates T →
  init_data now (exec (init_data now) w)
  = (fst (init_data now w), exec (init_data now) w).
Proof.
  intros HT Hnew.
  destruct w as [d t c f e]; simpl in HT; subst d.
  pose proof (today_in_appended (isoformat now) T) as Hin.
  run. rewrite (bool_decide_eq_false_2 _ Hnew). simpl.
  destruct t as [t|], c as [c|]; simpl;
    repeat (case_match; simpl in *; simplify_eq); try done.
  all: by rewrite (bool_decide_eq_true_2 _ Hin) in *.
Qed.

(** C3: when no row of the table has today's date, [init_data] appends
    exactly the row [(today, 0)] after the existing rows, and a second call
    on the result changes nothing and ends as the first did.  The table is
    the one of the session, or the loaded one on the first run. *)
Theorem init_data_appends_once now w T :
  table_on_entry w = Ok T →
  isoformat now ∉ dates T →
  ss_data (exec (init_data now) w) = Some (T ++ [mkRow (isoformat now) 0])
  ∧ init_data now (exec (init_data now) w)
    = (fst (init_data now w), exec (init_data now) w).
Proof.
  intros HT Hnew. split.
  - destruct (init_data_table now w T HT) as (-> & _ & _).
    by rewrite bool_decide_eq_false_2.
  - destruct (init_data_entry now w T HT) as (Heq & _).
    unfold exec. rewrite Heq. by apply (init_data_twice_session now _ T).
Qed.

Lemma init_data_appends_once_witness :
  let now := mkDate 2024 6 2 in
  let T := [mkRow "2024-06-01" 4] in
  let w := mkWorld None None None (Some (to_csv T)) [] in
  ss_data (exec (init_data now) w)
  = Some [mkRow "2024-06-01" 4; mkRow "2024-06-02" 0]
  ∧ exec (init_data now) (exec (init_data now) w) = exec (init_data now) w.
Proof.
  intros now T w.
  assert (HT : table_on_entry w = Ok T) by reflexivity.
  assert (Hnew : isoformat now ∉ dates T).
  { apply (bool_decide_unpack _). vm_compute. reflexivity. }
  destruct (init_data_appends_once now w T HT Hnew) as [H1 H2].
  split; [exact H1|]. unfold exec at 1. rewrite H2. reflexivity.
Defined.

(** ** The callbacks *)

(** The table after [add_outreach] on a row that exists: the count of that
    row is one more in 64-bit integers, whatever happens afterwards. *)
Lemma lookup_insert_same (T : Table) i r r' :
  T !! i = Some r → <[i := r']> T !! i = Some r'.
Proof. intros Hi. apply list_lookup_insert_eq. by eapply lookup_lt_Some. Qed.

Lemma add_outreach_table w T i r :
  ss_data w = Some T → T !! i = Some r →
  ss_data (exec (add_outreach i) w)
  = Some (<[i := mkRow (date r) (wrap64 (count r + 1))]> T).
Proof.
  destruct w as [d t c f e]; simpl; intros -> Hi.
  pose proof (lookup_insert_same T i r (mkRow (date r) (wrap64 (count r + 1))) Hi)
    as Hi'.
  run. rewrite Hi. simpl. rewrite Hi'. simpl.
  repeat (case_match; simpl in *; simplify_eq); done.
Qed.

Lemma add_outreach_missing w T i :
  ss_data w = Some T → T !! i = None →
  add_outreach i w = (Raise KeyError, w).
Proof.
  destruct w as [d t c f e]; simpl; intros -> Hi.
  run. by rewrite Hi.
Qed.

Lemma remove_outreach_table w T i r :
  ss_data w = Some T → T !! i = Some r → 0 < count r →
  ss_data (exec (remove_outreach i) w)
  = Some (<[i := mkRow (date r) (count r - 1)]> T).
Proof.
  destruct w as [d t c f e]; simpl; intros -> Hi Hpos.
  pose proof (lookup_insert_same T i r (mkRow (date r) (count r - 1)) Hi) as Hi'.
  run. rewrite Hi. simpl.
  rewrite (proj2 (Z.ltb_lt _ _) Hpos). simpl. rewrite Hi'. simpl.
  repeat (case_match; simpl in *; simplify_eq); done.
Qed.

Lemma remove_outreach_at_zero w T i r :
  ss_data w = Some T → T !! i = Some r → count r ≤ 0 →
  remove_outreach i w
  = (Ok tt, mkWorld (ss_data w) (ss_today w) (ss_count w) (data_file w)
              (events w ++ [Warning warning_text])).
Proof.
  destruct w as [d t c f e]; simpl; intros -> Hi Hz.
  run. rewrite Hi. simpl.
  by rewrite (proj2 (Z.ltb_ge _ _) Hz).
Qed.

Lemma remove_outreach_missing w T i :
  ss_data w = Some T → T !! i = None →
  remove_outreach i w = (Raise KeyError, w).
Proof.
  destruct w as [d t c f e]; simpl; intros -> Hi.
  run. by rewrite Hi.
Qed.

(** C4: on a row whose count is 0, [remove_outreach] leaves the table, the
    session and the file as they are, writes nothing and shows the warning
    that nothing can be removed, and returns normally; on a row whose count
    is positive it takes one off and saves the new table. *)
Theorem remove_outreach_spec w T i r :
  ss_data w = Some T →
  T !! i = Some r →
  (count r = 0 →
     remove_outreach i w
     = (Ok tt, mkWorld (Some T) (ss_today w) (ss_count w) (data_file w)
                 (events w ++ [Warning warning_text])))
  ∧ (0 < count r → ∀ today, ss_today w = Some today →
     let T' := <[i := mkRow (date r) (count r - 1)]> T in
     let w' := exec (remove_outreach i) w in
     fst (remove_outreach i w) = Ok tt
     ∧ ss_data w' = Some T'
     ∧ data_file w' = Some (to_csv T')
     ∧ events w' = events w ++ [WroteFile (to_csv T')]).
Proof.
  intros HT Hi. split.
  - intros Hz.
    rewrite (remove_outreach_at_zero w T i r HT Hi) by lia. by rewrite HT.
  - intros Hpos today Htoday.
    destruct w as [d t c f e]; simpl in *; subst d t.
    pose proof (lookup_insert_same T i r (mkRow (date r) (count r - 1)) Hi) as Hi'.
    run. rewrite Hi. simpl.
    rewrite (proj2 (Z.ltb_lt _ _) Hpos). simpl. rewrite Hi'. simpl.
    by case_bool_decide.
Qed.

Lemma remove_outreach_spec_witness :
  let T := [mkRow "2024-06-01" 0; mkRow "2024-06-02" 3] in
  let w := mkWorld (Some T) (Some "2024-06-02") (Some 3) (Some (to_csv T)) [] in
  remove_outreach 0 w
  = (Ok tt, mkWorld (Some T) (Some "2024-06-02") (Some 3) (Some (to_csv T))
              [Warning warning_text])
  ∧ ss_data (exec (remove_outreach 1) w)
    = Some [mkRow "2024-06-01" 0; mkRow "2024-06-02" 2].
Proof.
  intros T w. split.
  - apply (proj1 (remove_outreach_spec w T 0%nat (mkRow "2024-06-01" 0)
                    eq_refl eq_refl)).
    reflexivity.
  - apply (proj2 (remove_outreach_spec w T 1%nat (mkRow "2024-06-02" 3)
                    eq_refl eq_refl) ltac:(simpl; lia) "2024-06-02" eq_refl).
Defined.

(** Writing a row of the same date at a label that exists changes that row
    only. *)
Lemma insert_same_date (T : Table) i r n :
  T !! i = Some r →
  let T' := <[i := mkRow (date r) n]> T in
  T' !! i = Some (mkRow (date r) n)
  ∧ length T' = length T
  ∧ dates T' = dates T
  ∧ ∀ j, j ≠ i → T' !! j = T !! j.
Proof.
  intros Hi T'. subst T'. repeat split.
  - by eapply lookup_insert_same.
  - apply length_insert.
  - unfold dates. rewrite list_fmap_insert. simpl.
    apply list_insert_id. by rewrite list_lookup_fmap, Hi.
  - intros j Hj. by apply list_lookup_insert_ne.
Qed.

(** C10: on a row that exists, [add_outreach] and, when the count is
    positive, [remove_outreach] change the count of that row and nothing
    else of the table: its date, the other rows, the number of rows and
    their order stay.  The new count is one more in 64-bit integers (one
    more below [int64_max], [int64_min] at [int64_max]), or one less. *)
Theorem callbacks_frame w T i r :
  ss_data w = Some T →
  T !! i = Some r →
  (∃ T', ss_data (exec (add_outreach i) w) = Some T'
         ∧ T' !! i = Some (mkRow (date r) (wrap64 (count r + 1)))
         ∧ (int64_min ≤ count r < int64_max →
            T' !! i = Some (mkRow (date r) (count r + 1)))
         ∧ length T' = length T
         ∧ dates T' = dates T
         ∧ ∀ j, j ≠ i → T' !! j = T !! j)
  ∧ (0 < count r →
     ∃ T', ss_data (exec (remove_outreach i) w) = Some T'
           ∧ T' !! i = Some (mkRow (date r) (count r - 1))
           ∧ length T' = length T
           ∧ dates T' = dates T
           ∧ ∀ j, j ≠ i → T' !! j = T !! j).
Proof.
  intros HT Hi. split.
  - eexists. split; [by eapply add_outreach_table|].
    destruct (insert_same_date T i r (wrap64 (count r + 1)) Hi)
      as (Hrow & Hlen & Hdates & Hother).
    split; [done|]. split; [|done].
    intros Hfit. rewrite Hrow. by rewrite wrap64_id by lia.
  - intros Hpos. eexists. split; [by eapply remove_outreach_table|].
    by apply insert_same_date.
Qed.

Lemma callbacks_frame_witness :
  let T := [mkRow "2024-06-01" 7; mkRow "2024-06-02" 3] in
  let w := mkWorld (Some T) (Some "2024-06-02") (Some 3) None [] in
  (∃ T', ss_data (exec (add_outreach 1) w) = Some T'
         ∧ T' !! 1%nat = Some (mkRow "2024-06-02" 4)
         ∧ T' !! 0%nat = Some (mkRow "2024-06-01" 7))
  ∧ (∃ T', ss_data (exec (remove_outreach 1) w) = Some T'
           ∧ T' !! 1%nat = Some (mkRow "2024-06-02" 2)
           ∧ length T' = 2%nat).
Proof.
  intros T w.
  destruct (callbacks_frame w T 1%nat (mkRow "2024-06-02" 3) eq_refl eq_refl)
    as [(T1 & H1 & _ & H2 & _ & _ & H3) Hrem].
  destruct (Hrem ltac:(simpl; lia)) as (T2 & H4 & H5 & H6 & _).
  split.
  - exists T1. repeat split; [exact H1 | |].
    + apply H2. vm_compute. split; congruence.
    + rewrite (H3 0%nat) by lia. reflexivity.
  - exists T2. repeat split; [exact H4 | exact H5 | exact H6].
Defined.

(** ** The invariant of the store *)

Lemma table_inv_insert (T : Table) i r n :
  T !! i = Some r → 0 ≤ n → table_inv T →
  table_inv (<[i := mkRow (date r) n]> T).
Proof.
  intros Hi Hn [Hc Hd].
  destruct (insert_same_date T i r n Hi) as (_ & _ & Hdates & _).
  split; [|by rewrite Hdates].
  apply Forall_insert; [done|]. done.
Qed.

Lemma table_inv_new_row (T : Table) (today_str : string) :
  today_str ∉ dates T → table_inv T → table_inv (T ++ [new_row today_str]).
Proof.
  intros Hnew [Hc Hd]. split.
  - apply Forall_app. split; [done|]. by repeat constructor.
  - unfold dates. rewrite fmap_app. simpl.
    apply NoDup_app. repeat split; [done| |apply NoDup_singleton].
    intros x Hx ->%list_elem_of_singleton. done.
Qed.

Lemma init_data_today now w :
  fst (init_data now w) = Ok tt →
  ∃ T', ss_data (exec (init_data now) w) = Some T' ∧ isoformat now ∈ dates T'.
Proof.
  destruct w as [[T|] t c f e].
  - intros _. eexists. split; [by apply init_data_session|].
    case_bool_decide; [done|]. apply today_in_appended.
  - run. pose proof (today_in_appended (isoformat now)) as Hin.
    repeat (case_match; simpl in *; simplify_eq); try done.
    all: intros _; eexists; (split; [done|]).
    all: try apply Hin; try apply (Hin []).
    all: match goal with
         | H : negb (bool_decide _) = false |- _ =>
             apply negb_false_iff, bool_decide_eq_true in H; exact H
         end.
Qed.

(** C7 (amended): [init_data] and [remove_outreach] keep every count
    non-negative and the dates distinct; [add_outreach] keeps the dates
    distinct, and keeps every count non-negative when the count of the row
    it is called on is below [int64_max]; once [init_data] has returned the
    table has a row for today. *)
Theorem store_invariant :
  (∀ now w T, table_on_entry w = Ok T → table_inv T →
     ∃ T', ss_data (exec (init_data now) w) = Some T'
           ∧ table_inv T' ∧ isoformat now ∈ dates T')
  ∧ (∀ i w T, ss_data w = Some T → table_inv T →
     (∀ r, T !! i = Some r → count r < int64_max) →
     ∃ T', ss_data (exec (add_outreach i) w) = Some T' ∧ table_inv T')
  ∧ (∀ i w T, ss_data w = Some T → NoDup (dates T) →
     ∃ T', ss_data (exec (add_outreach i) w) = Some T' ∧ NoDup (dates T'))
  ∧ (∀ i w T, ss_data w = Some T → table_inv T →
     ∃ T', ss_data (exec (remove_outreach i) w) = Some T' ∧ table_inv T')
  ∧ (∀ now w, fst (init_data now w) = Ok tt →
     ∃ T', ss_data (exec (init_data now) w) = Some T'
           ∧ isoformat now ∈ dates T').
Proof.
  split; [|split; [|split; [|split]]].
  - intros now w T HT Hinv. eexists. split; [by apply init_data_table|].
    case_bool_decide; [done|]. split; [by apply table_inv_new_row|].
    apply today_in_appended.
  - intros i w T HT Hinv Hmax. destruct (T !! i) as [r|] eqn:Hi.
    + eexists. split; [by eapply add_outreach_table|].
      apply table_inv_insert; [done| |done].
      destruct Hinv as [Hc _]. rewrite Forall_lookup in Hc.
      specialize (Hc i r Hi). simpl in Hc. specialize (Hmax r eq_refl).
      rewrite wrap64_id; unfold int64_min, int64_max in *; lia.
    + exists T. split; [|done]. unfold exec.
      by rewrite (add_outreach_missing w T i HT Hi).
  - intros i w T HT Hnd. destruct (T !! i) as [r|] eqn:Hi.
    + eexists. split; [by eapply add_outreach_table|].
      destruct (insert_same_date T i r (wrap64 (count r + 1)) Hi)
        as (_ & _ & Hdates & _).
      by rewrite Hdates.
    + exists T. split; [|done]. unfold exec.
      by rewrite (add_outreach_missing w T i HT Hi).
  - intros i w T HT Hinv. destruct (T !! i) as [r|] eqn:Hi.
    + destruct (Z.lt_ge_cases 0 (count r)) as [Hpos|Hz].
      * eexists. split; [by eapply remove_outreach_table|].
        apply table_inv_insert; [done|lia|done].
      * exists T. split; [|done]. unfold exec.
        by rewrite (remove_outreach_at_zero w T i r HT Hi Hz).
    + exists T. split; [|done]. unfold exec.
      by rewrite (remove_outreach_missing w T i HT Hi).
  - apply init_data_today.
Qed.

Lemma store_invariant_witness :
  let T := [mkRow "2024-06-01" 0; mkRow "2024-06-02" 3] in
  let w := mkWorld (Some T) (Some "2024-06-02") (Some 3) None [] in
  (∃ T', ss_data (exec (init_data (mkDate 2024 6 3)) w) = Some T'
         ∧ table_inv T' ∧ "2024-06-03" ∈ dates T')
  ∧ (∃ T', ss_data (exec (add_outreach 0) w) = Some T' ∧ table_inv T')
  ∧ (∃ T', ss_data (exec (remove_outreach 0) w) = Some T' ∧ table_inv T').
Proof.
  intros T w.
  assert (Hinv : table_inv T).
  { split.
    - repeat constructor; simpl; lia.
    - apply (bool_decide_unpack _). vm_compute. reflexivity. }
  destruct store_invariant as (Hinit & Hadd & _ & Hrem & _).
  split; [|split].
  - exact (Hinit (mkDate 2024 6 3) w T eq_refl Hinv).
  - apply (Hadd 0%nat w T eq_refl Hinv).
    intros r [= <-]. vm_compute. reflexivity.
  - exact (Hrem 0%nat w T eq_refl Hinv).
Defined.

(** The claim as it was stated fails for [add_outreach] at the largest
    64-bit count: the table with the one well-formed row of count 2^63-1
    has no negative count, and after [add_outreach] the count is -2^63. *)
Lemma store_invariant_overflow :
  table_inv [mkRow "2024-06-01" (2 ^ 63 - 1)]
  ∧ well_formed [mkRow "2024-06-01" (2 ^ 63 - 1)]
  ∧ ss_data (exec (add_outreach 0)
               (mkWorld (Some [mkRow "2024-06-01" (2 ^ 63 - 1)])
                  (Some "2024-06-01") (Some (2 ^ 63 - 1)) None []))
    = Some [mkRow "2024-06-01" (- 2 ^ 63)]
  ∧ ¬ table_inv [mkRow "2024-06-01" (- 2 ^ 63)].
Proof.
  split; [|split; [|split]].
  - split.
    + repeat constructor. simpl. lia.
    + apply (bool_decide_unpack _). vm_compute. reflexivity.
  - repeat constructor; simpl; vm_compute; congruence.
  - vm_compute. reflexivity.
  - intros [Hc _]. apply Forall_cons in Hc as [Hc _]. simpl in Hc. lia.
Qed.

(** ** The CSV file *)

Lemma append_cons x (a b : string) : String x a +:+ b = String x (a +:+ b).
Proof. reflexivity. Qed.

Lemma append_nil_l (a : string) : EmptyString +:+ a = a.
Proof. reflexivity. Qed.

Lemma append_assoc (a b c : string) : (a +:+ b) +:+ c = a +:+ (b +:+ c).
Proof.
  induction a as [|x a IH]; [done|]. by rewrite !append_cons, IH.
Qed.

Lemma append_nil_r (a : string) : a +:+ EmptyString = a.
Proof.
  induction a as [|x a IH]; [done|]. by rewrite append_cons, IH.
Qed.

Lemma contains_app c (a b : string) :
  contains c (a +:+ b) = (contains c a || contains c b)%bool.
Proof.
  induction a as [|x a IH]; [done|].
  rewrite append_cons. simpl. rewrite IH. by rewrite orb_assoc.
Qed.

Lemma split_on_nonempty sep s : split_on sep s ≠ [].
Proof.
  destruct s as [|c s]; simpl; [done|].
  destruct (Ascii.eqb c sep); [done|]. by destruct (split_on sep s).
Qed.

Lemma split_on_whole sep s :
  contains sep s = false → split_on sep s = [s].
Proof.
  induction s as [|c s IH]; simpl; [done|].
  intros [Hc Hs]%orb_false_iff. rewrite Hc, IH by done. done.
Qed.

Lemma split_on_field sep (a b : string) :
  contains sep a = false →
  split_on sep (a +:+ String sep b) = a :: split_on sep b.
Proof.
  induction a as [|c a IH].
  - intros _. rewrite append_nil_l. simpl. by rewrite Ascii.eqb_refl.
  - simpl. intros [Hc Ha]%orb_false_iff. by rewrite Hc, IH.
Qed.

Lemma digit_no_sep c :
  is_digit c = true →
  Ascii.eqb c comma = false ∧ Ascii.eqb c newline = false.
Proof.
  destruct c as [[] [] [] [] [] [] [] []]; vm_compute; intros; by try split.
Qed.

Lemma hyphen_no_sep c :
  Ascii.eqb c "-" = true →
  Ascii.eqb c comma = false ∧ Ascii.eqb c newline = false.
Proof. intros ->%Ascii.eqb_eq. by split. Qed.

Lemma iso_date_no_sep d :
  is_iso_date d = true →
  contains comma d = false ∧ contains newline d = false ∧ d ≠ EmptyString.
Proof.
  unfold is_iso_date. repeat (destruct d as [|? d]; try done).
  intros H.
  repeat match goal with
         | H : (_ && _)%bool = true |- _ => apply andb_prop in H as [? ?]
         end.
  repeat match goal with
         | H : is_digit _ = true |- _ => apply digit_no_sep in H as [? ?]
         | H : Ascii.eqb _ "-" = true |- _ => apply hyphen_no_sep in H as [? ?]
         end.
  simpl. repeat split; [| |done]; repeat (apply orb_false_iff; split); done.
Qed.

Lemma uint_no_sep (d : Decimal.uint) :
  contains comma (NilEmpty.string_of_uint d) = false
  ∧ contains newline (NilEmpty.string_of_uint d) = false.
Proof. induction d; simpl; try done. Qed.

Lemma str_no_sep z :
  contains comma (str z) = false ∧ contains newline (str z) = false.
Proof.
  unfold str, NilZero.string_of_int, NilZero.string_of_uint.
  destruct (Z.to_int z) as [d|d]; destruct d; simpl; try done;
    apply uint_no_sep.
Qed.

Lemma to_int_not_nil z :
  Z.to_int z ≠ Decimal.Pos Decimal.Nil ∧ Z.to_int z ≠ Decimal.Neg Decimal.Nil.
Proof.
  destruct z as [|p|p]; simpl; split; try done;
    intros [= H]; by apply DecimalPos.Unsigned.to_uint_nonnil in H.
Qed.

Lemma parse_count_str z :
  int64_min ≤ z ≤ int64_max → parse_count (str z) = Some z.
Proof.
  intros [Hlo Hhi]. unfold parse_count, str.
  destruct (to_int_not_nil z) as [Hp Hn].
  rewrite NilZero.isi by done. simpl.
  rewrite DecimalZ.of_to, String.eqb_refl.
  rewrite (proj2 (Z.leb_le _ _) Hlo), (proj2 (Z.leb_le _ _) Hhi). done.
Qed.

Lemma parse_line_fields r :
  well_formed_row r → parse_line (csv_fields r) = Some r.
Proof.
  intros [Hiso Hrange]. unfold parse_line, csv_fields.
  destruct (iso_date_no_sep _ Hiso) as (Hc & _ & _).
  destruct (str_no_sep (count r)) as [Hsc _].
  change ("," +:+ str (count r)) with (String comma (str (count r))).
  rewrite split_on_field, split_on_whole by done.
  rewrite Hiso, parse_count_str by done. by destruct r.
Qed.

Lemma parse_lines_fields (T : Table) :
  well_formed T → parse_lines (map csv_fields T) = Some T.
Proof.
  induction 1 as [|r T Hr _ IH]; simpl; [done|].
  by rewrite parse_line_fields, IH.
Qed.

Lemma csv_fields_no_newline r :
  well_formed_row r →
  contains newline (csv_fields r) = false ∧ csv_fields r ≠ EmptyString.
Proof.
  intros [Hiso _]. unfold csv_fields.
  destruct (iso_date_no_sep _ Hiso) as (_ & Hn & Hne).
  destruct (str_no_sep (count r)) as [_ Hsn].
  split.
  - rewrite !contains_app, Hn, Hsn. done.
  - destruct (date r); [done|]. by rewrite append_cons.
Qed.

Lemma split_lines_rows (T : Table) :
  well_formed T →
  split_on newline (concat_str (map csv_line T))
  = map csv_fields T ++ [EmptyString].
Proof.
  induction 1 as [|r T Hr _ IH]; simpl; [done|].
  unfold csv_line at 1. rewrite append_assoc.
  change (nl +:+ ?s) with (String newline s).
  rewrite split_on_field by (by apply csv_fields_no_newline).
  by rewrite IH.
Qed.

Lemma filter_blank_rows (T : Table) :
  well_formed T →
  filter (λ l, l ≠ EmptyString) (map csv_fields T ++ [EmptyString])
  = map csv_fields T.
Proof.
  induction 1 as [|r T Hr _ IH]; simpl; [done|].
  rewrite filter_cons_True by (by apply csv_fields_no_newline).
  by rewrite IH.
Qed.

(** What was saved is read back. *)
Lemma read_csv_to_csv (T : Table) :
  well_formed T → read_csv_text (to_csv T) = Ok T.
Proof.
  intros HT. unfold read_csv_text, to_csv.
  change (String.eqb (csv_header +:+ ?s) EmptyString) with false. cbv iota.
  change (csv_header +:+ nl +:+ ?s) with (csv_header +:+ String newline s).
  rewrite (split_on_field newline csv_header) by done.
  rewrite split_lines_rows by done.
  rewrite filter_cons_True by done.
  rewrite filter_blank_rows by done.
  rewrite String.eqb_refl. by rewrite parse_lines_fields.
Qed.

(** C6: a table of well-formed rows, saved and loaded again, comes back
    row for row: the same dates as text and the same integer counts, in the
    same order. *)
Theorem save_load_roundtrip w (T : Table) :
  well_formed T →
  load_data (exec (save_data T) w) = (Ok T, exec (save_data T) w)
  ∧ data_file (exec (save_data T) w) = Some (to_csv T).
Proof.
  intros HT. destruct w as [d t c f e]. run.
  by rewrite read_csv_to_csv.
Qed.

Lemma save_load_roundtrip_witness :
  let T := [mkRow "2024-06-01" 12; mkRow "2024-06-02" 0] in
  let w := mkWorld None None None None [] in
  fst (load_data (exec (save_data T) w)) = Ok T
  ∧ data_file (exec (save_data T) w)
    = Some ("date,count" +:+ nl +:+ "2024-06-01,12" +:+ nl +:+ "2024-06-02,0" +:+ nl).
Proof.
  intros T w.
  assert (HT : well_formed T).
  { repeat constructor; simpl; vm_compute; congruence. }
  destruct (save_load_roundtrip w T HT) as [H1 H2].
  split; [by rewrite H1|exact H2].
Defined.

(** C8: with no file, or a file of no bytes, [load_data] returns the empty
    table and raises nothing; the world is as it was. *)
Theorem load_data_missing_or_empty d t c e :
  load_data (mkWorld d t c None e) = (Ok [], mkWorld d t c None e)
  ∧ load_data (mkWorld d t c (Some EmptyString) e)
    = (Ok [], mkWorld d t c (Some EmptyString) e).
Proof. by split. Qed.

(** ** The calendar *)

Lemma foldl_append {A} (f : A → string) (l : list A) (html : string) :
  foldl (λ html x, html +:+ f x) html l = html +:+ concat_str (map f l).
Proof.
  revert html. induction l as [|x l IH]; intros html; simpl.
  - by rewrite append_nil_r.
  - by rewrite IH, append_assoc.
Qed.

Section week_text.
Context (counts : gmap string Z) (y m : Z).

Lemma day_html_cell d :
  day_html counts y m d = cell_html (day_cell counts y m d).
Proof.
  unfold day_html, day_cell, classify.
  destruct (d =? 0); [done|]. by destruct (met _).
Qed.

Lemma foldl_weeks (cal : list (list Z)) (html : string) :
  foldl (λ html week,
           let html := html +:+ "<tr>" in
           let html := foldl (λ html d, html +:+ day_html counts y m d) html week in
           html +:+ "</tr>") html cal
  = html +:+ concat_str (map week_html (map (map (day_cell counts y m)) cal)).
Proof.
  revert html. induction cal as [|week cal IH]; intros html; simpl.
  - by rewrite append_nil_r.
  - rewrite IH, foldl_append. unfold week_html at 2.
    rewrite (map_ext _ _ day_html_cell).
    by rewrite !map_map, !append_assoc.
Qed.

End week_text.

(** The page is the text of the grid. *)
Lemma render_monthly_calendar_grid now df :
  render_monthly_calendar now df
  = match calendar_grid (year now) (month now) (counts_of df) with
    | Ok grid => Ok (grid_html grid)
    | Raise e => Raise e
    end.
Proof.
  unfold render_monthly_calendar, calendar_grid.
  destruct (monthcalendar (year now) (month now)) as [cal|e]; [|done].
  rewrite foldl_weeks. unfold grid_html, html_head.
  by rewrite !append_assoc.
Qed.

Lemma weeks_of_prefix (days : list Z) (c : nat) :
  concat (map (λ k, take 7 (drop (7 * k) days)) (seq 0 c)) = take (7 * c) days.
Proof.
  induction c as [|c IH].
  - by rewrite Nat.mul_0_r, take_0.
  - rewrite seq_S, map_app, concat_app, IH. simpl.
    rewrite app_nil_r, take_take_drop. f_equal. lia.
Qed.

Lemma concat_weeks_of (days : list Z) : concat (weeks_of days) = days.
Proof.
  unfold weeks_of. rewrite weeks_of_prefix. apply take_ge.
  pose proof (Nat.div_mod_eq (length days + 6) 7) as Hdiv.
  pose proof (Nat.mod_upper_bound (length days + 6) 7) as Hmod. lia.
Qed.

Lemma weeks_of_full (days : list Z) (n : nat) :
  length days = (7 * n)%nat →
  Forall (λ week : list Z, length week = 7%nat) (weeks_of days).
Proof.
  intros Hlen. unfold weeks_of.
  replace ((length days + 6) / 7)%nat with n.
  2:{ rewrite Hlen. apply Nat.div_unique with 6%nat; lia. }
  apply Forall_forall. intros week Hin.
  apply list_elem_of_In, in_map_iff in Hin as (k & <- & Hk).
  apply in_seq in Hk. rewrite length_take, length_drop. lia.
Qed.

Lemma month_cases m :
  1 ≤ m ≤ 12 →
  m = 1 ∨ m = 2 ∨ m = 3 ∨ m = 4 ∨ m = 5 ∨ m = 6
  ∨ m = 7 ∨ m = 8 ∨ m = 9 ∨ m = 10 ∨ m = 11 ∨ m = 12.
Proof. lia. Qed.

Lemma weekday_range y m d : 0 ≤ weekday y m d < 7.
Proof. unfold weekday. apply Z.mod_pos_bound. lia. Qed.

(** Within a month the weekday moves on by one a day. *)
Lemma weekday_shift y m d :
  weekday y m d = (weekday y m 1 + (d - 1)) mod 7.
Proof.
  unfold weekday, ymd2ord.
  set (y' := if ((1 <=? y) && (y <=? 9999))%bool then y else 2000 + y mod 400).
  generalize (days_before_year y' + days_before_month y' m). intros base.
  rewrite Zplus_mod_idemp_l. f_equal. lia.
Qed.

Lemma monthrange_ok y m :
  1 ≤ m ≤ 12 →
  ∃ ndays, monthrange y m = Ok (weekday y m 1, ndays) ∧ 28 ≤ ndays ≤ 31.
Proof.
  intros Hm. unfold monthrange.
  rewrite (proj2 (Z.leb_le _ _) (proj1 Hm)), (proj2 (Z.leb_le _ _) (proj2 Hm)).
  simpl. eexists. split; [done|].
  destruct (month_cases m Hm) as [->|[->|[->|[->|[->|[->|[->|[->|[->|[->|[->| ->]]]]]]]]]]];
    simpl; try lia.
  destruct (isleap y); simpl; lia.
Qed.

Lemma itermonthdays_length day1 ndays :
  0 ≤ day1 < 7 → 0 ≤ ndays →
  let days := replicate (Z.to_nat ((day1 - 0) mod 7)) 0
              ++ seqZ 1 ndays
              ++ replicate (Z.to_nat ((0 - day1 - ndays) mod 7)) 0 in
  ∃ n, length days = (7 * n)%nat.
Proof.
  intros Hd Hn days. subst days.
  exists (Z.to_nat ((day1 + ndays + (0 - day1 - ndays) mod 7) / 7)).
  rewrite !length_app, !length_replicate, length_seqZ.
  pose proof (Z.mod_pos_bound (0 - day1 - ndays) 7 ltac:(lia)) as Ha.
  pose proof (Z.div_mod (0 - day1 - ndays) 7 ltac:(lia)) as Hq.
  rewrite (Z.mod_small (day1 - 0) 7) by lia.
  set (a := (0 - day1 - ndays) mod 7) in *.
  set (q := (0 - day1 - ndays) / 7) in *.
  replace (day1 + ndays + a) with (7 * (- q)) by lia.
  rewrite Z.mul_comm, Z.div_mul by lia. lia.
Qed.

Lemma concat_lookup_weeks {A} (grid : list (list A)) (i : nat) (x : A) :
  Forall (λ week, length week = 7%nat) grid →
  concat grid !! i = Some x →
  ∃ week, grid !! (i / 7)%nat = Some week ∧ week !! (i mod 7)%nat = Some x.
Proof.
  intros Hweeks. revert i.
  induction Hweeks as [|week grid Hlen _ IH]; intros i Hx.
  { by destruct i. }
  change (concat (week :: grid)) with (week ++ concat grid) in Hx.
  destruct (decide (i < 7)%nat) as [Hlt|Hge].
  - rewrite lookup_app_l in Hx by lia. exists week.
    rewrite Nat.div_small, Nat.mod_small by lia. done.
  - rewrite lookup_app_r, Hlen in Hx by lia.
    destruct (IH _ Hx) as (week' & Hrow & Hcol). exists week'.
    replace (i / 7)%nat with (S ((i - 7) / 7)).
    2:{ replace i with (1 * 7 + (i - 7))%nat at 2 by lia.
        rewrite Nat.div_add_l by lia. lia. }
    replace (i mod 7)%nat with ((i - 7) mod 7)%nat.
    2:{ replace i with ((i - 7) + 1 * 7)%nat at 2 by lia.
        by rewrite Nat.Div0.mod_add. }
    done.
Qed.

Section month_grid.
Context (counts : gmap string Z) (y m : Z).

Lemma seqZ_days_cells ndays :
  map (day_cell counts y m) (seqZ 1 ndays) = classify counts y m <$> seqZ 1 ndays.
Proof.
  apply list_eq. intros i.
  change (map (day_cell counts y m) (seqZ 1 ndays))
    with (day_cell counts y m <$> seqZ 1 ndays).
  rewrite !list_lookup_fmap.
  destruct (seqZ 1 ndays !! i) as [d|] eqn:Hd; [|done]. simpl.
  apply lookup_seqZ in Hd as [-> _]. unfold day_cell.
  destruct (Z.eqb_spec (1 + Z.of_nat i) 0); [lia|done].
Qed.

Lemma map_replicate_zero n :
  map (day_cell counts y m) (replicate n 0) = replicate n EmptyDay.
Proof. induction n as [|n IH]; simpl; [done|]. by rewrite IH. Qed.

(** The grid behind the page, for a month the calendar accepts. *)
Lemma calendar_grid_shape :
  1 ≤ m ≤ 12 →
  ∃ grid ndays after,
    calendar_grid y m counts = Ok grid
    ∧ monthrange y m = Ok (weekday y m 1, ndays)
    ∧ Forall (λ week : list cell, length week = 7%nat) grid
    ∧ concat grid
      = replicate (Z.to_nat (weekday y m 1)) EmptyDay
        ++ (classify counts y m <$> seqZ 1 ndays)
        ++ replicate after EmptyDay
    ∧ (after < 7)%nat.
Proof.
  intros Hm. destruct (monthrange_ok y m Hm) as (ndays & Hmr & Hnd).
  pose proof (weekday_range y m 1) as Hwd.
  unfold calendar_grid, monthcalendar, itermonthdays. rewrite Hmr.
  destruct (itermonthdays_length (weekday y m 1) ndays Hwd ltac:(lia)) as [n Hlen].
  eexists _, ndays, (Z.to_nat ((0 - weekday y m 1 - ndays) mod 7)).
  split; [done|]. split; [done|]. split; [|split].
  - apply Forall_forall. intros week Hin.
    apply list_elem_of_In, in_map_iff in Hin as (zs & <- & Hzs).
    rewrite length_map.
    pose proof (weeks_of_full _ n Hlen) as Hfull.
    rewrite Forall_forall in Hfull. apply Hfull. by apply list_elem_of_In.
  - rewrite <- concat_map, concat_weeks_of, !map_app.
    rewrite !map_replicate_zero, seqZ_days_cells.
    rewrite (Z.mod_small (weekday y m 1 - 0) 7) by lia.
    by rewrite Z.sub_0_r.
  - pose proof (Z.mod_pos_bound (0 - weekday y m 1 - ndays) 7 ltac:(lia)). lia.
Qed.

(** Where a day sits: the week and the column of its cell. *)
Lemma calendar_grid_day grid ndays after d :
  Forall (λ week : list cell, length week = 7%nat) grid →
  concat grid
  = replicate (Z.to_nat (weekday y m 1)) EmptyDay
    ++ (classify counts y m <$> seqZ 1 ndays)
    ++ replicate after EmptyDay →
  1 ≤ d ≤ ndays →
  ∃ week,
    grid !! Z.to_nat ((weekday y m 1 + (d - 1)) / 7) = Some week
    ∧ week !! Z.to_nat (weekday y m d) = Some (classify counts y m d).
Proof.
  intros Hweeks Hcells Hd.
  pose proof (weekday_range y m 1) as Hwd.
  assert (Hflat : concat grid !! Z.to_nat (weekday y m 1 + (d - 1))
                  = Some (classify counts y m d)).
  { rewrite Hcells, lookup_app_r by (rewrite length_replicate; lia).
    rewrite length_replicate, lookup_app_l by (rewrite length_fmap, length_seqZ; lia).
    rewrite list_lookup_fmap.
    replace (Z.to_nat (weekday y m 1 + (d - 1)) - Z.to_nat (weekday y m 1))%nat
      with (Z.to_nat (d - 1)) by lia.
    rewrite (lookup_seqZ_lt 1 ndays) by lia. simpl. f_equal. f_equal. lia. }
  destruct (concat_lookup_weeks _ _ _ Hweeks Hflat) as (week & Hrow & Hcol).
  exists week. split.
  - rewrite Z2Nat.inj_div by lia. exact Hrow.
  - rewrite weekday_shift, Z2Nat.inj_mod by lia. exact Hcol.
Qed.

End month_grid.



(** ** Runs of the model on concrete inputs *)

Example weekday_first_of_june_2024 : weekday 2024 6 1 = 5.
Proof. reflexivity. Qed.

Example monthcalendar_june_2024 :
  monthcalendar 2024 6
  = Ok [[0; 0; 0; 0; 0; 1; 2];
        [3; 4; 5; 6; 7; 8; 9];
        [10; 11; 12; 13; 14; 15; 16];
        [17; 18; 19; 20; 21; 22; 23];
        [24; 25; 26; 27; 28; 29; 30]].
Proof. reflexivity. Qed.

Example monthcalendar_february_2021 :
  monthcalendar 2021 2
  = Ok [[1; 2; 3; 4; 5; 6; 7];
        [8; 9; 10; 11; 12; 13; 14];
        [15; 16; 17; 18; 19; 20; 21];
        [22; 23; 24; 25; 26; 27; 28]].
Proof. reflexivity. Qed.

Example monthcalendar_month_13 : monthcalendar 2024 13 = Raise IllegalMonthError.
Proof. reflexivity. Qed.

Example date_str_june_15 : date_str 2024 6 15 = "2024-06-15".
Proof. reflexivity. Qed.

Example isoformat_year_7 : isoformat (mkDate 7 1 2) = "0007-01-02".
Proof. reflexivity. Qed.

Example to_csv_two_rows :
  to_csv [mkRow "2024-06-01" 12; mkRow "2024-06-02" 0]
  = "date,count" +:+ nl +:+ "2024-06-01,12" +:+ nl +:+ "2024-06-02,0" +:+ nl.
Proof. reflexivity. Qed.

Example read_csv_header_only :
  read_csv_text ("date,count" +:+ nl) = Ok [].
Proof. reflexivity. Qed.

(** The first run, with no file: the table gets today's row, and the
    session its day and count. *)
Example first_run :
  init_data (mkDate 2024 6 1) (mkWorld None None None None [])
  = (Ok tt, mkWorld (Some [mkRow "2024-06-01" 0]) (Some "2024-06-01") (Some 0)
              None []).
Proof. reflexivity. Qed.

(** The tenth outreach of today: balloons, then the file is written. *)
Example tenth_outreach :
  let T := [mkRow "2024-06-01" 9] in
  let T' := [mkRow "2024-06-01" 10] in
  add_outreach 0 (mkWorld (Some T) (Some "2024-06-01") (Some 9) None [])
  = (Ok tt, mkWorld (Some T') (Some "2024-06-01") (Some 10) (Some (to_csv T'))
              [Balloons; WroteFile (to_csv T')]).
Proof. reflexivity. Qed.

(** An outreach on another day's row: the count of the session stays, the
    file is written. *)
Example outreach_on_another_day :
  let T := [mkRow "2024-05-31" 4; mkRow "2024-06-01" 9] in
  let T' := [mkRow "2024-05-31" 5; mkRow "2024-06-01" 9] in
  add_outreach 0 (mkWorld (Some T) (Some "2024-06-01") (Some 9) None [])
  = (Ok tt, mkWorld (Some T') (Some "2024-06-01") (Some 9) (Some (to_csv T'))
              [WroteFile (to_csv T')]).
Proof. reflexivity. Qed.

(** A label outside the index: [KeyError], and nothing has changed. *)
Example outreach_on_missing_row :
  let w := mkWorld (Some [mkRow "2024-06-01" 9]) (Some "2024-06-01") (Some 9) None [] in
  add_outreach 3 w = (Raise KeyError, w).
Proof. reflexivity. Qed.

Example weekly_count_of_nine_rows :
  compute_weekly_count
    [mkRow "a" 100; mkRow "b" 100; mkRow "c" 1; mkRow "d" 2; mkRow "e" 3;
     mkRow "f" 4; mkRow "g" 5; mkRow "h" 6; mkRow "i" 7] = 28.
Proof. reflexivity. Qed.

(** * Further properties of the script *)

(** ** The streak and the weekly sum as the table changes *)

Lemma streak_snoc (df : Table) r :
  consecutive_streak (df ++ [r])
  = if met (count r) then consecutive_streak df + 1 else 0.
Proof.
  unfold consecutive_streak. rewrite reverse_snoc. simpl.
  destruct (met (count r)); [|done].
  rewrite streak_loop_acc. lia.
Qed.

Lemma streak_range (df : Table) :
  0 ≤ consecutive_streak df ≤ Z.of_nat (length df).
Proof.
  induction df as [|r df IH] using rev_ind; [done|].
  rewrite streak_snoc, length_app. simpl.
  destruct (met (count r)); lia.
Qed.

(** X1: The streak is between 0 and the number of rows; it is positive exactly
    when the last row meets the goal, and it counts every row exactly when
    every row meets the goal. *)
Theorem consecutive_streak_bounds (df : Table) :
  0 ≤ consecutive_streak df ≤ Z.of_nat (length df)
  ∧ (0 < consecutive_streak df ↔ ∃ r, last df = Some r ∧ 10 ≤ count r)
  ∧ (consecutive_streak df = Z.of_nat (length df) ↔ Forall (λ r, 10 ≤ count r) df).
Proof.
  split; [apply streak_range|]. split.
  - destruct df as [|r df _] using rev_ind.
    + split; [done|]. by intros (r & ? & _).
    + rewrite streak_snoc, last_snoc. pose proof (streak_range df) as Hr.
      unfold met. destruct (Z.leb_spec 10 (count r)); split.
      * intros _. by exists r.
      * lia.
      * lia.
      * intros (r' & [= <-] & ?). lia.
  - induction df as [|r df IH] using rev_ind; [done|].
    rewrite streak_snoc, length_app, Forall_app, Forall_singleton. simpl.
    pose proof (streak_range df) as Hr.
    unfold met. destruct (Z.leb_spec 10 (count r)); split.
    + intros Hall. split; [apply IH; lia|done].
    + intros [Hall _]. apply IH in Hall. lia.
    + lia.
    + intros [_ ?]. lia.
Qed.

Lemma consecutive_streak_bounds_witness :
  0 < consecutive_streak [mkRow "2024-06-01" 3; mkRow "2024-06-02" 10].
Proof.
  apply (proj2 (proj1 (proj2 (consecutive_streak_bounds _)))).
  exists (mkRow "2024-06-02" 10). split; [reflexivity|simpl; lia].
Defined.

(** X2: Rows added at the end: when all of them meet the goal they lengthen the
    streak, otherwise the streak is counted inside them alone. *)
Theorem consecutive_streak_app (df rows : Table) :
  consecutive_streak (df ++ rows)
  = if forallb (λ r, met (count r)) rows
    then consecutive_streak df + Z.of_nat (length rows)
    else consecutive_streak rows.
Proof.
  induction rows as [|r rows IH] using rev_ind.
  - rewrite app_nil_r. simpl. lia.
  - rewrite app_assoc, !streak_snoc, IH, forallb_app, length_app. simpl.
    destruct (met (count r)); simpl.
    + rewrite andb_true_r. destruct (forallb _ rows); lia.
    + by rewrite andb_false_r.
Qed.

(** X3: On a day that has no row yet, [init_data] adds a row of count 0 at the
    end, so the streak of the table it leaves is 0. *)
Theorem streak_after_new_day now w T :
  table_on_entry w = Ok T →
  isoformat now ∉ dates T →
  ∃ T', ss_data (exec (init_data now) w) = Some T'
        ∧ consecutive_streak T' = 0.
Proof.
  intros HT Hnew. destruct (init_data_table now w T HT) as (Hd & _ & _).
  rewrite bool_decide_eq_false_2 in Hd by done.
  eexists. split; [exact Hd|]. by rewrite streak_snoc.
Qed.

Lemma streak_after_new_day_witness :
  let T := [mkRow "2024-06-01" 12; mkRow "2024-06-02" 15] in
  let w := mkWorld (Some T) (Some "2024-06-02") (Some 15) None [] in
  consecutive_streak T = 2
  ∧ ∃ T', ss_data (exec (init_data (mkDate 2024 6 3)) w) = Some T'
          ∧ consecutive_streak T' = 0.
Proof.
  intros T w. split; [reflexivity|].
  apply (streak_after_new_day (mkDate 2024 6 3) w T eq_refl).
  apply (bool_decide_unpack _). vm_compute. reflexivity.
Defined.

Lemma wrap64_shift z q : wrap64 (z + q * 2 ^ 64) = wrap64 z.
Proof.
  unfold wrap64. f_equal.
  replace (z + q * 2 ^ 64 - int64_min) with (z - int64_min + q * 2 ^ 64) by lia.
  apply Z_mod_plus_full.
Qed.

Lemma wrap64_mod z : ∃ q, wrap64 z = z + q * 2 ^ 64.
Proof.
  exists (- ((z - int64_min) / 2 ^ 64)). unfold wrap64.
  pose proof (Z.div_mod (z - int64_min) (2 ^ 64) ltac:(lia)). lia.
Qed.

(** One more in 64-bit integers. *)
Lemma wrap64_succ c :
  int64_min ≤ c ≤ int64_max →
  wrap64 (c + 1) = if c =? int64_max then int64_min else c + 1.
Proof.
  intros Hc. destruct (Z.eqb_spec c int64_max) as [->|Hne].
  - vm_compute. reflexivity.
  - apply wrap64_id. unfold int64_min, int64_max in *. lia.
Qed.

Lemma sum_of_insert (T : Table) i r x :
  T !! i = Some r →
  sum_of (counts_column (<[i := x]> T))
  = sum_of (counts_column T) + (count x - count r).
Proof.
  revert i. induction T as [|r' T IH]; intros [|i] Hi; simplify_eq/=.
  - lia.
  - rewrite (IH i Hi). lia.
Qed.

Lemma window_sum_insert (T : Table) i r x :
  T !! i = Some r →
  sum_of (counts_column (tail 7 (<[i := x]> T)))
  = sum_of (counts_column (tail 7 T))
    + (if bool_decide (length T ≤ i + 7)%nat then count x - count r else 0).
Proof.
  intros Hi. unfold tail. rewrite length_insert.
  pose proof (lookup_lt_Some _ _ _ Hi) as Hlt.
  case_bool_decide as Hin.
  - rewrite drop_insert_ge by lia.
    apply sum_of_insert. rewrite lookup_drop. rewrite <- Hi. f_equal. lia.
  - rewrite drop_insert_lt by lia. lia.
Qed.

(** The weekly count after the count of one row has moved by [k] in 64-bit
    integers. *)
Lemma compute_weekly_count_moved (T : Table) i r k :
  T !! i = Some r →
  compute_weekly_count (<[i := mkRow (date r) (wrap64 (count r + k))]> T)
  = wrap64 (compute_weekly_count T
            + (if bool_decide (length T ≤ i + 7)%nat then k else 0)).
Proof.
  intros Hi. unfold compute_weekly_count, series_sum.
  rewrite (window_sum_insert T i r) by done. simpl.
  rewrite wrap64_add.
  case_bool_decide; [|done].
  destruct (wrap64_mod (count r + k)) as [q ->].
  rewrite <- (wrap64_shift (sum_of (counts_column (tail 7 T)) + k) q).
  f_equal. lia.
Qed.

(** X4: An outreach added to one of the last seven rows raises the weekly sum
    by one and one taken from it lowers the sum by one, in 64-bit integers:
    by one exactly, unless the weekly sum is at the end of the 64-bit
    range; on an older row the weekly sum does not move. *)
Theorem weekly_count_after_callback w T i r :
  ss_data w = Some T →
  T !! i = Some r →
  let step := if bool_decide (length T ≤ i + 7)%nat then 1 else 0 in
  (∃ T', ss_data (exec (add_outreach i) w) = Some T'
         ∧ compute_weekly_count T' = wrap64 (compute_weekly_count T + step)
         ∧ (compute_weekly_count T < int64_max →
            compute_weekly_count T' = compute_weekly_count T + step))
  ∧ (0 < count r →
     ∃ T', ss_data (exec (remove_outreach i) w) = Some T'
           ∧ compute_weekly_count T' = wrap64 (compute_weekly_count T - step)
           ∧ (int64_min < compute_weekly_count T →
              compute_weekly_count T' = compute_weekly_count T - step)).
Proof.
  intros HT Hi step.
  pose proof (wrap64_range (sum_of (counts_column (tail 7 T)))) as Hrange.
  change (wrap64 _) with (compute_weekly_count T) in Hrange.
  split.
  - eexists. split; [by eapply add_outreach_table|].
    rewrite (compute_weekly_count_moved T i r 1 Hi). fold step.
    split; [done|]. intros Hmax. apply wrap64_id.
    subst step. case_bool_decide; unfold int64_max in *; lia.
  - intros Hpos. eexists. split; [by eapply remove_outreach_table|].
    pose proof (window_sum_insert T i r (mkRow (date r) (count r - 1)) Hi) as Hsum.
    simpl in Hsum.
    assert (Hcw : compute_weekly_count (<[i := mkRow (date r) (count r - 1)]> T)
                  = wrap64 (compute_weekly_count T - step)).
    { unfold compute_weekly_count, series_sum. rewrite Hsum.
      replace (wrap64 (sum_of (counts_column (tail 7 T))) - step)
        with (wrap64 (sum_of (counts_column (tail 7 T))) + - step) by lia.
      rewrite wrap64_add. f_equal. subst step. case_bool_decide; lia. }
    split; [exact Hcw|]. intros Hmin. rewrite Hcw. apply wrap64_id.
    subst step. case_bool_decide; unfold int64_min in *; lia.
Qed.

Lemma weekly_count_after_callback_witness :
  let T := [mkRow "d1" 5; mkRow "d2" 1; mkRow "d3" 1; mkRow "d4" 1;
            mkRow "d5" 1; mkRow "d6" 1; mkRow "d7" 1; mkRow "d8" 1] in
  let w := mkWorld (Some T) (Some "d8") (Some 1) None [] in
  (∃ T', ss_data (exec (add_outreach 0) w) = Some T'
         ∧ compute_weekly_count T' = 7)
  ∧ (∃ T', ss_data (exec (remove_outreach 7) w) = Some T'
           ∧ compute_weekly_count T' = 6).
Proof.
  intros T w.
  destruct (weekly_count_after_callback w T 0%nat (mkRow "d1" 5) eq_refl eq_refl)
    as [(T1 & H1 & _ & H2) _].
  destruct (weekly_count_after_callback w T 7%nat (mkRow "d8" 1) eq_refl eq_refl)
    as [_ Hrem].
  destruct (Hrem ltac:(simpl; lia)) as (T2 & H3 & _ & H4).
  split.
  - exists T1. split; [exact H1|]. apply H2. vm_compute. reflexivity.
  - exists T2. split; [exact H3|]. apply H4. vm_compute. reflexivity.
Defined.

(** ** What a callback does to the whole world *)

(** [add_outreach] on a row that exists, in a session that holds its day. *)
Lemma add_outreach_run w T i r today :
  ss_data w = Some T → T !! i = Some r → ss_today w = Some today →
  let n := wrap64 (count r + 1) in
  let T' := <[i := mkRow (date r) n]> T in
  add_outreach i w
  = (Ok tt,
     mkWorld (Some T') (Some today)
       (if bool_decide (date r = today) then Some n else ss_count w)
       (Some (to_csv T'))
       (events w
        ++ (if (bool_decide (date r = today) && (n =? 10))%bool
            then [Balloons] else [])
        ++ [WroteFile (to_csv T')])).
Proof.
  destruct w as [d t c f e]; simpl; intros -> Hi ->.
  pose proof (lookup_insert_same T i r (mkRow (date r) (wrap64 (count r + 1))) Hi)
    as Hi'.
  run. rewrite Hi. simpl. rewrite Hi'. simpl.
  case_bool_decide; simpl; [|done].
  destruct (wrap64 (count r + 1) =? 10); simpl; [|done].
  by rewrite <- app_assoc.
Qed.

(** [remove_outreach] on a row of positive count, in a session that holds
    its day. *)
Lemma remove_outreach_run w T i r today :
  ss_data w = Some T → T !! i = Some r → ss_today w = Some today →
  0 < count r →
  let T' := <[i := mkRow (date r) (count r - 1)]> T in
  remove_outreach i w
  = (Ok tt,
     mkWorld (Some T') (Some today)
       (if bool_decide (date r = today) then Some (count r - 1) else ss_count w)
       (Some (to_csv T'))
       (events w ++ [WroteFile (to_csv T')])).
Proof.
  destruct w as [d t c f e]; simpl; intros -> Hi -> Hpos.
  pose proof (lookup_insert_same T i r (mkRow (date r) (count r - 1)) Hi) as Hi'.
  run. rewrite Hi. simpl.
  rewrite (proj2 (Z.ltb_lt _ _) Hpos). simpl. rewrite Hi'. simpl.
  by case_bool_decide.
Qed.

Lemma insert_back (T : Table) i r n :
  T !! i = Some r →
  <[i := mkRow (date r) (count r)]> (<[i := mkRow (date r) n]> T) = T.
Proof.
  intros Hi. rewrite list_insert_insert_eq. apply list_insert_id.
  by destruct r.
Qed.

(** X5: An outreach added and then removed on the same row, whose count is
    from 0 to below [int64_max], leaves the table as it was, and so the
    count of the session; each of the two steps writes the file, first with
    the raised count, then with the table as it was. *)
Theorem add_then_remove w T i r today :
  ss_data w = Some T → T !! i = Some r → ss_today w = Some today →
  0 ≤ count r < int64_max →
  let T1 := <[i := mkRow (date r) (count r + 1)]> T in
  let w1 := exec (add_outreach i) w in
  let w2 := exec (remove_outreach i) w1 in
  fst (add_outreach i w) = Ok tt
  ∧ fst (remove_outreach i w1) = Ok tt
  ∧ data_file w1 = Some (to_csv T1)
  ∧ ss_data w2 = Some T
  ∧ data_file w2 = Some (to_csv T)
  ∧ events w2 = events w1 ++ [WroteFile (to_csv T)]
  ∧ (date r = today → ss_count w2 = Some (count r))
  ∧ (date r ≠ today → ss_count w2 = ss_count w).
Proof.
  intros HT Hi Htoday Hpos T1 w1 w2. subst w2 w1. unfold exec.
  rewrite (add_outreach_run w T i r today HT Hi Htoday). simpl.
  assert (Hn : wrap64 (count r + 1) = count r + 1).
  { apply wrap64_id. unfold int64_min, int64_max in *. lia. }
  rewrite Hn.
  pose proof (lookup_insert_same T i r (mkRow (date r) (count r + 1)) Hi) as Hi1.
  erewrite remove_outreach_run;
    [|reflexivity|exact Hi1|reflexivity|simpl; lia].
  simpl. replace (count r + 1 - 1) with (count r) by lia.
  unfold T1. rewrite (insert_back T i r _ Hi).
  repeat split; try done.
  - intros Heq. by rewrite bool_decide_eq_true_2.
  - intros Hne. by rewrite !bool_decide_eq_false_2.
Qed.

Lemma add_then_remove_witness :
  let T := [mkRow "2024-06-01" 7; mkRow "2024-06-02" 0] in
  let w := mkWorld (Some T) (Some "2024-06-02") (Some 0) None [] in
  ss_data (exec (remove_outreach 1) (exec (add_outreach 1) w)) = Some T
  ∧ data_file (exec (remove_outreach 1) (exec (add_outreach 1) w)) = Some (to_csv T).
Proof.
  intros T w.
  destruct (add_then_remove w T 1%nat (mkRow "2024-06-02" 0) "2024-06-02"
              eq_refl eq_refl eq_refl ltac:(vm_compute; split; congruence))
    as (_ & _ & _ & H1 & H2 & _).
  split; [exact H1|exact H2].
Defined.

(** X6: How the callbacks fail.  Without a table in the session, or for a label
    that is not in the index, they raise [KeyError] and change nothing.
    When the session holds no day, [add_outreach] (and [remove_outreach] on
    a positive count) raises [KeyError] after the count of the row has been
    changed in the session (by one, in 64-bit integers), and the file is
    not written. *)
Theorem callbacks_key_error w i :
  (ss_data w = None →
     add_outreach i w = (Raise KeyError, w)
     ∧ remove_outreach i w = (Raise KeyError, w))
  ∧ (∀ T, ss_data w = Some T → T !! i = None →
     add_outreach i w = (Raise KeyError, w)
     ∧ remove_outreach i w = (Raise KeyError, w))
  ∧ (∀ T r, ss_data w = Some T → T !! i = Some r → ss_today w = None →
     add_outreach i w
     = (Raise KeyError,
        with_data (<[i := mkRow (date r) (wrap64 (count r + 1))]> T) w)
     ∧ (0 < count r →
        remove_outreach i w
        = (Raise KeyError,
           with_data (<[i := mkRow (date r) (count r - 1)]> T) w))).
Proof.
  split; [|split].
  - destruct w as [d t c f e]; simpl; intros ->. by run.
  - intros T HT Hi. split.
    + by eapply add_outreach_missing.
    + by eapply remove_outreach_missing.
  - intros T r HT Hi Htoday.
    destruct w as [d t c f e]; simpl in *; subst d t. split.
    + pose proof (lookup_insert_same T i r
                    (mkRow (date r) (wrap64 (count r + 1))) Hi) as Hi'.
      unfold with_data. run. rewrite Hi. simpl. by rewrite Hi'.
    + intros Hpos.
      pose proof (lookup_insert_same T i r (mkRow (date r) (count r - 1)) Hi) as Hi'.
      unfold with_data. run. rewrite Hi. simpl.
      rewrite (proj2 (Z.ltb_lt _ _) Hpos). simpl. by rewrite Hi'.
Qed.

Lemma callbacks_key_error_witness :
  let T := [mkRow "2024-06-01" 7] in
  add_outreach 0 (mkWorld None None None None []) = (Raise KeyError, mkWorld None None None None [])
  ∧ remove_outreach 4 (mkWorld (Some T) (Some "2024-06-01") (Some 7) None [])
    = (Raise KeyError, mkWorld (Some T) (Some "2024-06-01") (Some 7) None [])
  ∧ add_outreach 0 (mkWorld (Some T) None None None [])
    = (Raise KeyError, mkWorld (Some [mkRow "2024-06-01" 8]) None None None []).
Proof.
  intros T. split; [|split].
  - apply (proj1 (callbacks_key_error (mkWorld None None None None []) 0%nat)).
    reflexivity.
  - apply (proj1 (proj2 (callbacks_key_error
             (mkWorld (Some T) (Some "2024-06-01") (Some 7) None []) 4%nat))
             T eq_refl eq_refl).
  - apply (proj2 (proj2 (callbacks_key_error
             (mkWorld (Some T) None None None []) 0%nat))
             T (mkRow "2024-06-01" 7) eq_refl eq_refl eq_refl).
Defined.

(** X7: The balloons: on a row whose count is a 64-bit integer,
    [add_outreach] shows them exactly when the row is the one of the
    session's day and its count becomes 10, and then before the file is
    written with the new count; [remove_outreach] never shows them. *)
Theorem balloons_at_ten w T i r today :
  ss_data w = Some T → T !! i = Some r → ss_today w = Some today →
  int64_min ≤ count r ≤ int64_max →
  (∃ shown, events (exec (add_outreach i) w) = events w ++ shown
            ∧ (Balloons ∈ shown ↔ date r = today ∧ count r = 9)
            ∧ last shown
              = Some (WroteFile
                        (to_csv (<[i := mkRow (date r) (wrap64 (count r + 1))]> T))))
  ∧ (∃ shown, events (exec (remove_outreach i) w) = events w ++ shown
              ∧ Balloons ∉ shown).
Proof.
  intros HT Hi Htoday Hfit. split.
  - unfold exec. rewrite (add_outreach_run w T i r today HT Hi Htoday). simpl.
    eexists. split; [done|].
    assert (Hten : wrap64 (count r + 1) = 10 ↔ count r = 9).
    { rewrite (wrap64_succ _ Hfit).
      destruct (Z.eqb_spec (count r) int64_max) as [->|_].
      - by vm_compute.
      - lia. }
    case_bool_decide as Hd; simpl.
    + destruct (Z.eqb_spec (wrap64 (count r + 1)) 10) as [Heq|Hne];
        simpl; split; try done.
      * split; [intros _; split; [done|by apply Hten]|intros _; constructor].
      * split; [by intros [=]%list_elem_of_singleton|].
        intros [_ H9]. by apply Hten in H9.
    + split; [|done]. split; [by intros [=]%list_elem_of_singleton|].
      by intros [? _].
  - destruct (Z.lt_ge_cases 0 (count r)) as [Hpos|Hz].
    + unfold exec.
      rewrite (remove_outreach_run w T i r today HT Hi Htoday Hpos). simpl.
      eexists. split; [done|]. by intros [=]%list_elem_of_singleton.
    + unfold exec. rewrite (remove_outreach_at_zero w T i r HT Hi Hz). simpl.
      eexists. split; [done|]. by intros [=]%list_elem_of_singleton.
Qed.

Lemma balloons_at_ten_witness :
  let T := [mkRow "2024-06-01" 9] in
  let w := mkWorld (Some T) (Some "2024-06-01") (Some 9) None [] in
  ∃ shown, events (exec (add_outreach 0) w) = events w ++ shown
           ∧ Balloons ∈ shown.
Proof.
  intros T w.
  destruct (proj1 (balloons_at_ten w T 0%nat (mkRow "2024-06-01" 9) "2024-06-01"
                     eq_refl eq_refl eq_refl ltac:(vm_compute; split; congruence)))
    as (shown & Hev & Hb & _).
  exists shown. split; [exact Hev|]. apply Hb. split; reflexivity.
Defined.

(** ** [init_data] and the session *)

Lemma index_where_shift today (df : Table) k :
  (filter (λ ir : nat * DayRecord, date ir.2 = today)
     (imap (λ i r, ((k + i)%nat, r)) df)).*1
  = (λ i, (k + i)%nat) <$> index_where today df.
Proof.
  unfold index_where. revert k.
  induction df as [|r df IH]; intros k; [done|].
  rewrite !imap_cons, !filter_cons.
  assert (E1 : imap ((λ i r0, ((k + i)%nat, r0)) ∘ S) df
               = imap (λ i (r0 : DayRecord), ((S k + i)%nat, r0)) df).
  { apply imap_ext. intros i x _. simpl. f_equal. lia. }
  assert (E2 : imap ((λ i r0, (i, r0)) ∘ S) df
               = imap (λ i (r0 : DayRecord), ((1 + i)%nat, r0)) df).
  { by apply imap_ext. }
  rewrite E1, E2.
  change (date ((k + 0)%nat, r).2) with (date r).
  change (date (0%nat, r).2) with (date r).
  case_decide; rewrite ?fmap_cons, (IH (S k)), (IH 1%nat), <- !list_fmap_compose.
  - f_equal; try (simpl; lia). apply list_fmap_ext. intros; simpl; lia.
  - apply list_fmap_ext. intros; simpl; lia.
Qed.

Lemma index_where_cons today r (df : Table) :
  index_where today (r :: df)
  = (if decide (date r = today) then [0%nat] else []) ++ (S <$> index_where today df).
Proof.
  unfold index_where at 1. rewrite imap_cons, filter_cons.
  assert (E : imap ((λ i r0, (i, r0)) ∘ S) df
              = imap (λ i (r0 : DayRecord), ((1 + i)%nat, r0)) df).
  { by apply imap_ext. }
  rewrite E. change (date (0%nat, r).2) with (date r).
  case_decide; rewrite ?fmap_cons, index_where_shift; done.
Qed.

Lemma index_where_nil today (df : Table) :
  index_where today df = [] → today ∉ dates df.
Proof.
  induction df as [|r df IH]; [intros _; apply not_elem_of_nil|].
  rewrite index_where_cons. case_decide; [done|]. simpl.
  intros Hnil%fmap_nil_inv. apply not_elem_of_cons. split; [done|]. by apply IH.
Qed.

(** The first label of [index_where] is the first row of that day. *)
Lemma index_where_head today (df : Table) idx rest :
  index_where today df = idx :: rest →
  ∃ r, df !! idx = Some r ∧ date r = today
       ∧ ∀ j r', (j < idx)%nat → df !! j = Some r' → date r' ≠ today.
Proof.
  revert idx rest. induction df as [|r df IH]; intros idx rest; [done|].
  rewrite index_where_cons. case_decide as Hd; simpl.
  - intros [= <- _]. exists r. repeat split; [done|]. intros j r' Hj. lia.
  - destruct (index_where today df) as [|idx' rest'] eqn:Hw; [done|].
    simpl. intros [= <- _].
    destruct (IH idx' rest' eq_refl) as (r0 & Hr0 & Hdate & Hfirst).
    exists r0. repeat split; [done|done|].
    intros [|j] r' Hj; simpl.
    + by intros [= <-].
    + apply Hfirst. lia.
Qed.

(** X8: [init_data] never writes the file and shows nothing, whether it returns
    or raises: the row it adds for a new day stays in the session until a
    callback saves the table. *)
Theorem init_data_never_writes now w :
  data_file (exec (init_data now) w) = data_file w
  ∧ events (exec (init_data now) w) = events w.
Proof.
  destruct w as [d t c f e].
  run. repeat (case_match; simpl in *; simplify_eq); done.
Qed.

Lemma init_data_keeps_session_day now w T today c :
  ss_data w = Some T → ss_today w = Some today → ss_count w = Some c →
  init_data now w
  = (Ok tt,
     mkWorld (Some (if bool_decide (isoformat now ∈ dates T) then T
                    else T ++ [new_row (isoformat now)]))
       (Some today) (Some c) (data_file w) (events w)).
Proof.
  destruct w as [d t c' f e]; simpl; intros -> -> ->.
  run. by case_bool_decide.
Qed.

(** X9: Once the session holds its day and its count, [init_data] leaves both
    alone: on a later day it adds the row of the new day to the table, and
    the session still holds the earlier day and its count. *)
Theorem init_data_stale_day now w T today c :
  ss_data w = Some T → ss_today w = Some today → ss_count w = Some c →
  fst (init_data now w) = Ok tt
  ∧ ss_today (exec (init_data now) w) = Some today
  ∧ ss_count (exec (init_data now) w) = Some c
  ∧ (isoformat now ∉ dates T →
     ss_data (exec (init_data now) w) = Some (T ++ [new_row (isoformat now)]))
  ∧ (isoformat now ∈ dates T → exec (init_data now) w = w).
Proof.
  intros HT Ht Hc. unfold exec.
  rewrite (init_data_keeps_session_day now w T today c HT Ht Hc). simpl.
  repeat split.
  - intros Hnew. by rewrite bool_decide_eq_false_2.
  - intros Hin. rewrite bool_decide_eq_true_2 by done.
    destruct w; simpl in *; by subst.
Qed.

Lemma init_data_stale_day_witness :
  let T := [mkRow "2024-06-01" 12] in
  let w := mkWorld (Some T) (Some "2024-06-01") (Some 12) None [] in
  ss_today (exec (init_data (mkDate 2024 6 2)) w) = Some "2024-06-01"
  ∧ ss_count (exec (init_data (mkDate 2024 6 2)) w) = Some 12
  ∧ ss_data (exec (init_data (mkDate 2024 6 2)) w)
    = Some [mkRow "2024-06-01" 12; mkRow "2024-06-02" 0].
Proof.
  intros T w.
  destruct (init_data_stale_day (mkDate 2024 6 2) w T "2024-06-01" 12
              eq_refl eq_refl eq_refl) as (_ & H1 & H2 & H3 & _).
  split; [exact H1|]. split; [exact H2|].
  apply H3. apply (bool_decide_unpack _). vm_compute. reflexivity.
Defined.

Lemma init_data_first_session_run now w T :
  table_on_entry w = Ok T → ss_today w = None → ss_count w = None →
  let today := isoformat now in
  let T' := if bool_decide (today ∈ dates T) then T else T ++ [new_row today] in
  ∃ idx r,
    init_data now w
    = (Ok tt, mkWorld (Some T') (Some today) (Some (count r))
                (data_file w) (events w))
    ∧ T' !! idx = Some r ∧ date r = today
    ∧ (∀ j r', (j < idx)%nat → T' !! j = Some r' → date r' ≠ today)
    ∧ (today ∉ dates T → r = new_row today).
Proof.
  intros HT Ht Hc today T'.
  destruct (init_data_entry now w T HT) as (-> & _ & _).
  assert (Hin : today ∈ dates T').
  { subst T'. case_bool_decide; [done|]. apply today_in_appended. }
  destruct (index_where today T') as [|idx rest] eqn:Hw.
  { by apply index_where_nil in Hw. }
  destruct (index_where_head today T' idx rest Hw) as (r & Hr & Hdate & Hfirst).
  exists idx, r. split; [|split; [done|split; [done|split; [done|]]]].
  - destruct w as [d t c f e]; simpl in *; subst t c.
    unfold with_data. run. fold today.
    destruct (bool_decide (today ∈ dates T)); simpl;
      subst T'; simpl in *; rewrite Hw; simpl; by rewrite Hr.
  - intros Hnew. subst T'. rewrite bool_decide_eq_false_2 in Hr, Hfirst by done.
    destruct (decide (idx < length T)%nat) as [Hlt|Hge].
    + rewrite lookup_app_l in Hr by done.
      exfalso. apply Hnew. unfold dates. rewrite <- Hdate.
      apply list_elem_of_fmap. exists r. split; [done|].
      by eapply list_elem_of_lookup_2.
    + rewrite lookup_app_r in Hr by lia.
      destruct (idx - length T)%nat; simpl in Hr; [by injection Hr|done].
Qed.

(** X10: The first run of a session: [init_data] returns, the session's day is
    today, and its count is the count of the first row of today in the
    table, which is the new row of count 0 when today had none. *)
Theorem init_data_first_session now w T :
  table_on_entry w = Ok T → ss_today w = None → ss_count w = None →
  let today := isoformat now in
  let T' := if bool_decide (today ∈ dates T) then T else T ++ [new_row today] in
  ∃ idx r,
    init_data now w
    = (Ok tt, mkWorld (Some T') (Some today) (Some (count r))
                (data_file w) (events w))
    ∧ T' !! idx = Some r ∧ date r = today
    ∧ (∀ j r', (j < idx)%nat → T' !! j = Some r' → date r' ≠ today)
    ∧ (today ∉ dates T → r = new_row today).
Proof. apply init_data_first_session_run. Qed.

Lemma init_data_first_session_witness :
  let T := [mkRow "2024-06-01" 12; mkRow "2024-06-02" 3] in
  let w := mkWorld None None None (Some (to_csv T)) [] in
  ∃ idx r,
    init_data (mkDate 2024 6 2) w
    = (Ok tt, mkWorld (Some T) (Some "2024-06-02") (Some (count r))
                (Some (to_csv T)) [])
    ∧ T !! idx = Some r.
Proof.
  intros T w.
  destruct (init_data_first_session (mkDate 2024 6 2) w T eq_refl eq_refl eq_refl)
    as (idx & r & Hrun & Hr & _).
  exists idx, r. split; [exact Hrun|exact Hr].
Defined.

(** ** The count of the session and the row of its day *)

Lemma same_date_same_row (T : Table) r1 r2 :
  NoDup (dates T) → r1 ∈ T → r2 ∈ T → date r1 = date r2 → r1 = r2.
Proof.
  intros Hnd [i Hi]%list_elem_of_lookup [j Hj]%list_elem_of_lookup Hd.
  assert (i = j) as ->; [|congruence].
  eapply (NoDup_lookup (dates T)); [done| |].
  - unfold dates. by rewrite list_lookup_fmap, Hi.
  - unfold dates. rewrite list_lookup_fmap, Hj. simpl. by rewrite Hd.
Qed.

Lemma session_sync_insert (T : Table) i r n today c :
  NoDup (dates T) → T !! i = Some r → mkRow today c ∈ T →
  let T' := <[i := mkRow (date r) n]> T in
  NoDup (dates T')
  ∧ mkRow today (if bool_decide (date r = today) then n else c) ∈ T'.
Proof.
  intros Hnd Hi Hrow T'.
  destruct (insert_same_date T i r n Hi) as (Hi' & _ & Hdates & Hother).
  fold T' in Hi', Hdates, Hother.
  split; [by rewrite Hdates|].
  case_bool_decide as Hd.
  - rewrite <- Hd. by eapply list_elem_of_lookup_2.
  - apply list_elem_of_lookup in Hrow as [j Hj].
    apply list_elem_of_lookup. exists j. rewrite Hother; [done|].
    intros ->. rewrite Hi in Hj. by injection Hj as ->.
Qed.

Lemma nodup_new_row (T : Table) (today_str : string) :
  today_str ∉ dates T → NoDup (dates T) →
  NoDup (dates (T ++ [new_row today_str])).
Proof.
  intros Hnew Hnd. unfold dates. rewrite fmap_app. simpl.
  apply NoDup_app. repeat split; [done| |apply NoDup_singleton].
  by intros x Hx ->%list_elem_of_singleton.
Qed.

Lemma session_sync_init_data now w :
  session_sync w → session_sync (exec (init_data now) w).
Proof.
  intros (T & today & c & HT & Ht & Hc & Hnd & Hrow).
  unfold exec. rewrite (init_data_keeps_session_day now w T today c) by done.
  simpl. eexists _, today, c.
  split; [done|]. split; [done|]. split; [done|]. split.
  - case_bool_decide; [done|]. by apply nodup_new_row.
  - case_bool_decide; [done|]. apply elem_of_app. by left.
Qed.

Lemma session_sync_add_outreach i w :
  session_sync w → session_sync (exec (add_outreach i) w).
Proof.
  intros (T & today & c & HT & Ht & Hc & Hnd & Hrow).
  destruct (T !! i) as [r|] eqn:Hi.
  - unfold exec. rewrite (add_outreach_run w T i r today) by done. simpl.
    destruct (session_sync_insert T i r (wrap64 (count r + 1)) today c Hnd Hi Hrow)
      as [Hnd' Hrow'].
    eexists _, today, _.
    split; [done|]. split; [done|]. split; [|by split].
    simpl. rewrite Hc. by case_bool_decide.
  - unfold exec. rewrite (add_outreach_missing w T i) by done.
    by exists T, today, c.
Qed.

Lemma session_sync_remove_outreach i w :
  session_sync w → session_sync (exec (remove_outreach i) w).
Proof.
  intros (T & today & c & HT & Ht & Hc & Hnd & Hrow).
  destruct (T !! i) as [r|] eqn:Hi.
  - destruct (Z.lt_ge_cases 0 (count r)) as [Hpos|Hz].
    + unfold exec. rewrite (remove_outreach_run w T i r today) by done. simpl.
      destruct (session_sync_insert T i r (count r - 1) today c Hnd Hi Hrow)
        as [Hnd' Hrow'].
      eexists _, today, _.
      split; [done|]. split; [done|]. split; [|by split].
      simpl. rewrite Hc. by case_bool_decide.
    + unfold exec. rewrite (remove_outreach_at_zero w T i r) by done. simpl.
      by exists T, today, c.
  - unfold exec. rewrite (remove_outreach_missing w T i) by done.
    by exists T, today, c.
Qed.

Lemma session_sync_first_run now w T :
  table_on_entry w = Ok T → ss_today w = None → ss_count w = None →
  NoDup (dates T) →
  session_sync (exec (init_data now) w).
Proof.
  intros HT Ht Hc Hnd.
  destruct (init_data_first_session_run now w T HT Ht Hc)
    as (idx & r & Hrun & Hr & Hdate & _ & _).
  unfold exec. rewrite Hrun. simpl.
  eexists _, (isoformat now), (count r).
  split; [done|]. split; [done|]. split; [done|]. split.
  - case_bool_decide as Hin; [done|]. by apply nodup_new_row.
  - replace (mkRow (isoformat now) (count r)) with r
      by (destruct r; simpl in *; by subst).
    by eapply list_elem_of_lookup_2.
Qed.

(** X11: The count the session shows stays the count of the row of its day:
    [init_data] and both callbacks keep this, for any day of the clock and
    any label, and the first run of a session on a table with one row per
    date brings it about. *)
Theorem session_sync_kept :
  (∀ now w, session_sync w → session_sync (exec (init_data now) w))
  ∧ (∀ i w, session_sync w → session_sync (exec (add_outreach i) w))
  ∧ (∀ i w, session_sync w → session_sync (exec (remove_outreach i) w))
  ∧ (∀ now w T,
       table_on_entry w = Ok T → ss_today w = None → ss_count w = None →
       NoDup (dates T) →
       session_sync (exec (init_data now) w)).
Proof.
  split; [apply session_sync_init_data|].
  split; [apply session_sync_add_outreach|].
  split; [apply session_sync_remove_outreach|].
  apply session_sync_first_run.
Qed.

Lemma session_sync_kept_witness :
  let T := [mkRow "2024-06-01" 12; mkRow "2024-06-02" 3] in
  let w := mkWorld None None None (Some (to_csv T)) [] in
  let w1 := exec (init_data (mkDate 2024 6 2)) w in
  session_sync w1
  ∧ session_sync (exec (add_outreach 1) w1)
  ∧ session_sync (exec (remove_outreach 0) (exec (add_outreach 1) w1)).
Proof.
  intros T w w1.
  destruct session_sync_kept as (_ & Hadd & Hrem & Hfirst).
  assert (H1 : session_sync w1).
  { apply (Hfirst (mkDate 2024 6 2) w T eq_refl eq_refl eq_refl).
    apply (bool_decide_unpack _). vm_compute. reflexivity. }
  split; [exact H1|]. split.
  - apply Hadd, H1.
  - apply Hrem, Hadd, H1.
Defined.

(** ** What is in the file after a callback *)

Lemma well_formed_insert (T : Table) i r n :
  well_formed T → T !! i = Some r → int64_min ≤ n ≤ int64_max →
  well_formed (<[i := mkRow (date r) n]> T).
Proof.
  intros HT Hi Hn. apply Forall_insert; [done|].
  unfold well_formed in HT. rewrite Forall_lookup in HT.
  destruct (HT i r Hi) as [Hiso _]. by split.
Qed.

(** X12: After a callback that returned, the file holds the table of the
    session: a session started afresh reads back exactly the table the
    callback left, as long as the rows are well formed and the count stays
    a 64-bit integer. *)
Theorem callback_is_persisted w T i r today :
  ss_data w = Some T → T !! i = Some r → ss_today w = Some today →
  well_formed T →
  (count r < int64_max →
     let w' := exec (add_outreach i) w in
     ∃ T', ss_data w' = Some T' ∧ load_data w' = (Ok T', w'))
  ∧ (0 < count r →
     let w' := exec (remove_outreach i) w in
     ∃ T', ss_data w' = Some T' ∧ load_data w' = (Ok T', w')).
Proof.
  intros HT Hi Htoday Hwf.
  assert (Hr : well_formed_row r).
  { unfold well_formed in Hwf. rewrite Forall_lookup in Hwf. by eapply Hwf. }
  destruct Hr as [_ [Hlo Hhi]]. split.
  - intros Hmax w'. subst w'. unfold exec.
    rewrite (add_outreach_run w T i r today HT Hi Htoday). simpl.
    eexists. split; [done|].
    unfold load_data, try_except. simpl.
    rewrite read_csv_to_csv; [done|].
    apply well_formed_insert; [done|done|apply wrap64_range].
  - intros Hpos w'. subst w'. unfold exec.
    rewrite (remove_outreach_run w T i r today HT Hi Htoday Hpos). simpl.
    eexists. split; [done|].
    unfold load_data, try_except. simpl.
    rewrite read_csv_to_csv; [done|].
    apply well_formed_insert; [done|done|].
    unfold int64_min in *. lia.
Qed.

Lemma callback_is_persisted_witness :
  let T := [mkRow "2024-06-01" 7; mkRow "2024-06-02" 3] in
  let w := mkWorld (Some T) (Some "2024-06-02") (Some 3) None [] in
  (∃ T', ss_data (exec (add_outreach 1) w) = Some T'
         ∧ fst (load_data (exec (add_outreach 1) w)) = Ok T')
  ∧ (∃ T', ss_data (exec (remove_outreach 0) w) = Some T'
           ∧ fst (load_data (exec (remove_outreach 0) w)) = Ok T').
Proof.
  intros T w.
  assert (Hwf : well_formed T).
  { repeat constructor; simpl; vm_compute; congruence. }
  split.
  - destruct (proj1 (callback_is_persisted w T 1%nat (mkRow "2024-06-02" 3)
                       "2024-06-02" eq_refl eq_refl eq_refl Hwf))
      as (T' & H1 & H2); [vm_compute; reflexivity|].
    exists T'. split; [exact H1|]. by rewrite H2.
  - destruct (proj2 (callback_is_persisted w T 0%nat (mkRow "2024-06-01" 7)
                       "2024-06-02" eq_refl eq_refl eq_refl Hwf))
      as (T' & H1 & H2); [vm_compute; reflexivity|].
    exists T'. split; [exact H1|]. by rewrite H2.
Defined.

(** ** The lookup of the calendar *)

Lemma counts_of_snoc (df : Table) r :
  counts_of (df ++ [r]) = <[date r := count r]> (counts_of df).
Proof. unfold counts_of. by rewrite foldl_app. Qed.

Lemma counts_of_last (df : Table) d :
  counts_of df !! d = count <$> last (filter (λ r, date r = d) df).
Proof.
  induction df as [|r df IH] using rev_ind; [done|].
  rewrite counts_of_snoc, filter_app, filter_cons, filter_nil.
  case_decide as Hd.
  - rewrite last_snoc. subst d. by rewrite lookup_insert_eq.
  - rewrite app_nil_r, lookup_insert_ne by done. apply IH.
Qed.

Lemma last_filter_elem (df : Table) d r :
  r ∈ df → date r = d → is_Some (last (filter (λ r', date r' = d) df)).
Proof.
  intros Hr Hd.
  assert (Hf : r ∈ filter (λ r', date r' = d) df) by (by apply list_elem_of_filter).
  destruct (filter (λ r', date r' = d) df) as [|x l _] using rev_ind.
  - by apply not_elem_of_nil in Hf.
  - rewrite last_snoc. by eexists.
Qed.

Lemma counts_of_row (df : Table) r :
  NoDup (dates df) → r ∈ df → counts_of df !! date r = Some (count r).
Proof.
  intros Hnd Hr. rewrite counts_of_last.
  destruct (last_filter_elem df (date r) r Hr eq_refl) as [r' Hl].
  rewrite Hl. simpl.
  apply last_Some_elem_of, list_elem_of_filter in Hl as [Hd Hr'].
  f_equal. f_equal. by eapply same_date_same_row.
Qed.

(** X13: The lookup gives for a date the count of the last row of that date, and
    nothing for a date without a row; in a table with one row per date it
    gives every row its own count. *)
Theorem counts_of_lookup (df : Table) :
  (∀ d, counts_of df !! d = count <$> last (filter (λ r, date r = d) df))
  ∧ (∀ d, counts_of df !! d = None ↔ d ∉ dates df)
  ∧ (NoDup (dates df) → ∀ r, r ∈ df → counts_of df !! date r = Some (count r)).
Proof.
  split; [apply counts_of_last|]. split.
  - intros d. rewrite counts_of_last. unfold dates. split.
    + intros Hnone Hin. apply list_elem_of_fmap in Hin as (r & -> & Hr).
      destruct (last_filter_elem df (date r) r Hr eq_refl) as [r' Hl].
      by rewrite Hl in Hnone.
    + intros Hnot.
      destruct (last (filter (λ r, date r = d) df)) as [r|] eqn:Hl; [|done].
      exfalso. apply Hnot. apply list_elem_of_fmap. exists r.
      apply last_Some_elem_of, list_elem_of_filter in Hl as [Hd Hr].
      by split.
  - intros Hnd r Hr. by apply counts_of_row.
Qed.

Lemma counts_of_lookup_witness :
  let df := [mkRow "2024-06-01" 3; mkRow "2024-06-02" 11] in
  counts_of df !! "2024-06-02" = Some 11.
Proof.
  intros df.
  apply (proj2 (proj2 (counts_of_lookup df))
           ltac:(apply (bool_decide_unpack _); vm_compute; reflexivity)
           (mkRow "2024-06-02" 11)).
  apply (bool_decide_unpack _). vm_compute. reflexivity.
Defined.

(** ** The keys of the calendar and the dates of the table *)

Lemma four_digit_years :
  forallb (λ y, String.eqb (format_0d 4 y) (str y)) (seqZ 1000 9000) = true.
Proof. vm_compute. reflexivity. Qed.

Lemma short_years :
  forallb (λ y, negb (String.length (format_0d 4 y) =? String.length (str y))%nat)
    (seqZ 1 999) = true.
Proof. vm_compute. reflexivity. Qed.

Lemma length_append (a b : string) :
  String.length (a +:+ b) = (String.length a + String.length b)%nat.
Proof.
  induction a as [|x a IH]; [done|]. rewrite append_cons. simpl. by rewrite IH.
Qed.

Lemma date_key_four_digits y m d :
  1000 ≤ y ≤ 9999 → date_str y m d = isoformat (mkDate y m d).
Proof.
  intros Hy. unfold date_str, isoformat. simpl. f_equal.
  pose proof four_digit_years as Hall.
  rewrite forallb_forall in Hall.
  specialize (Hall y). symmetry. apply String.eqb_eq, Hall.
  apply list_elem_of_In, elem_of_seqZ. lia.
Qed.

(** X14: The key the calendar looks up is the ISO text [init_data] stores for
    that day when the year has four digits; for the years 1 to 999 the key
    has no leading zeros and is never the stored text. *)
Theorem date_str_isoformat y m d :
  (1000 ≤ y ≤ 9999 → date_str y m d = isoformat (mkDate y m d))
  ∧ (1 ≤ y ≤ 999 → date_str y m d ≠ isoformat (mkDate y m d)).
Proof.
  split; [apply date_key_four_digits|].
  intros Hy Heq. apply (f_equal String.length) in Heq.
  unfold date_str, isoformat in Heq. simpl in Heq.
  rewrite !length_append in Heq.
  pose proof short_years as Hall.
  rewrite forallb_forall in Hall.
  specialize (Hall y ltac:(apply list_elem_of_In, elem_of_seqZ; lia)).
  apply negb_true_iff, Nat.eqb_neq in Hall. lia.
Qed.

Lemma date_str_isoformat_witness :
  date_str 2024 6 1 = isoformat (mkDate 2024 6 1)
  ∧ date_str 999 6 1 ≠ isoformat (mkDate 999 6 1).
Proof.
  split.
  - apply (proj1 (date_str_isoformat 2024 6 1)). lia.
  - apply (proj2 (date_str_isoformat 999 6 1)). lia.
Defined.

(** ** Today's cell and the cells of a month *)

Lemma monthrange_month y m day1 ndays :
  monthrange y m = Ok (day1, ndays) → 1 ≤ m ≤ 12 ∧ day1 = weekday y m 1.
Proof.
  unfold monthrange.
  destruct (Z.leb_spec 1 m), (Z.leb_spec m 12); simpl; try done.
  intros [= <- _]. split; [lia|done].
Qed.

(** X15: The cell of today in the month of today, for a day the calendar knows
    and a table with one row per date: it sits in the column of today's
    weekday and carries the tick exactly when the count of today's row is
    10 or more. *)
Theorem today_cell now (T : Table) c day1 ndays :
  NoDup (dates T) → mkRow (isoformat now) c ∈ T →
  1000 ≤ year now ≤ 9999 →
  monthrange (year now) (month now) = Ok (day1, ndays) →
  1 ≤ day now ≤ ndays →
  ∃ grid week,
    render_monthly_calendar now T = Ok (grid_html grid)
    ∧ grid !! Z.to_nat ((day1 + (day now - 1)) / 7) = Some week
    ∧ week !! Z.to_nat (weekday (year now) (month now) (day now))
      = Some (if bool_decide (10 ≤ c) then MetDay (day now) else Pending (day now)).
Proof.
  intros Hnd Hrow Hy Hmr Hd.
  destruct (monthrange_month _ _ _ _ Hmr) as [Hm ->].
  destruct (calendar_grid_shape (counts_of T) (year now) (month now) Hm)
    as (grid & ndays' & after & Hgrid & Hmr' & Hweeks & Hcells & _).
  rewrite Hmr in Hmr'. injection Hmr' as <-.
  destruct (calendar_grid_day (counts_of T) (year now) (month now)
              grid ndays after (day now) Hweeks Hcells Hd)
    as (week & Hweek & Hcell).
  exists grid, week. split; [|split; [done|]].
  - rewrite render_monthly_calendar_grid. by rewrite Hgrid.
  - rewrite Hcell. f_equal. unfold classify, day_count, met.
    rewrite (date_key_four_digits _ _ _ Hy).
    replace (mkDate (year now) (month now) (day now)) with now by (by destruct now).
    pose proof (counts_of_row T _ Hnd Hrow) as Hl. simpl in Hl.
    rewrite Hl. simpl.
    case_bool_decide as Hc.
    + by rewrite (proj2 (Z.leb_le _ _) Hc).
    + destruct (Z.leb_spec 10 c); [lia|done].
Qed.

Lemma today_cell_witness :
  ∃ grid week,
    render_monthly_calendar (mkDate 2024 6 15) [mkRow "2024-06-15" 10]
    = Ok (grid_html grid)
    ∧ grid !! 2%nat = Some week
    ∧ week !! 5%nat = Some (MetDay 15).
Proof.
  assert (Hnd : NoDup (dates [mkRow "2024-06-15" 10])).
  { apply (bool_decide_unpack _). vm_compute. reflexivity. }
  assert (Hrow : mkRow (isoformat (mkDate 2024 6 15)) 10 ∈ [mkRow "2024-06-15" 10]).
  { apply (bool_decide_unpack _). vm_compute. reflexivity. }
  destruct (today_cell (mkDate 2024 6 15) [mkRow "2024-06-15" 10] 10 5 30
              Hnd Hrow ltac:(simpl; lia) eq_refl ltac:(simpl; lia))
    as (grid & week & H1 & H2 & H3).
  exists grid, week. split; [exact H1|]. split; [exact H2|exact H3].
Defined.







(** ** More on the file *)

(** X17: Two well-formed tables that are saved as the same text are the same
    table. *)
Theorem to_csv_injective (T1 T2 : Table) :
  well_formed T1 → well_formed T2 → to_csv T1 = to_csv T2 → T1 = T2.
Proof.
  intros H1 H2 Heq.
  pose proof (read_csv_to_csv T1 H1) as R1.
  pose proof (read_csv_to_csv T2 H2) as R2.
  rewrite Heq in R1. congruence.
Qed.

Lemma to_csv_injective_witness :
  [mkRow "2024-06-01" 12] = [mkRow ("2024-06-" +:+ "01") (6 + 6)].
Proof.
  apply to_csv_injective.
  - repeat constructor; simpl; vm_compute; congruence.
  - repeat constructor; simpl; vm_compute; congruence.
  - vm_compute. reflexivity.
Defined.

(** X18: [load_data] reads only: it leaves the world as it is, and whatever the
    reader does it never lets [FileNotFoundError] or [EmptyDataError]
    through. *)
Theorem load_data_reads_only w :
  snd (load_data w) = w
  ∧ fst (load_data w) ≠ Raise FileNotFoundError
  ∧ fst (load_data w) ≠ Raise EmptyDataError.
Proof.
  unfold load_data, try_except. simpl.
  destruct (read_csv (data_file w)) as [df|[]]; by repeat split.
Qed.

(** ** The page of [main] *)

Lemma str_inj a b : str a = str b → a = b.
Proof.
  unfold str. intros Heq.
  apply DecimalZ.to_int_inj.
  destruct (to_int_not_nil a) as [Ha1 Ha2], (to_int_not_nil b) as [Hb1 Hb2].
  pose proof (NilZero.isi (Z.to_int a) Ha1 Ha2) as Pa.
  pose proof (NilZero.isi (Z.to_int b) Hb1 Hb2) as Pb.
  rewrite Heq in Pa. congruence.
Qed.

Lemma row_keys_disjoint i j key :
  key ∈ (row_buttons i).*1.*1 → key ∈ (row_buttons j).*1.*1 → i = j.
Proof.
  unfold row_buttons. simpl.
  rewrite !elem_of_cons, !elem_of_nil.
  intros [->|[->|[]]] [Hk|[Hk|[]]]; try discriminate Hk.
  - apply (inj (String.append "minus_")) in Hk. apply str_inj in Hk. lia.
  - apply (inj (String.append "plus_")) in Hk. apply str_inj in Hk. lia.
Qed.

Lemma row_keys_nodup i : NoDup (row_buttons i).*1.*1.
Proof.
  unfold row_buttons. simpl. apply NoDup_cons. split.
  - by intros [=]%list_elem_of_singleton.
  - apply NoDup_singleton.
Qed.

Lemma bind_row_keys (l : list nat) :
  (l ≫= row_buttons).*1.*1 = l ≫= (λ i, (row_buttons i).*1.*1).
Proof.
  induction l as [|i l IH]; [done|].
  rewrite !bind_cons, !fmap_app, IH. done.
Qed.

Lemma buttons_of_rows (T : Table) k :
  omap button_of (concat (imap (λ i, row_widgets (k + i)) T))
  = seq k (length T) ≫= row_buttons.
Proof.
  revert k. induction T as [|r T IH]; intros k; [done|].
  rewrite imap_cons.
  change (concat (?x :: ?l)) with (x ++ concat l).
  rewrite omap_app. simpl length. rewrite <- cons_seq, bind_cons.
  rewrite Nat.add_0_r. f_equal.
  rewrite <- (IH (S k)). f_equal. f_equal.
  apply imap_ext. intros i x _. simpl. f_equal. lia.
Qed.

Lemma buttons_of_table (T : Table) :
  omap button_of (concat (imap row_widgets T)) = seq 0 (length T) ≫= row_buttons.
Proof. apply (buttons_of_rows T 0). Qed.

Lemma daily_notice_no_button c : button_of (daily_notice c) = None.
Proof. unfold daily_notice. by repeat case_match. Qed.

Lemma weekly_notice_no_button c : button_of (weekly_notice c) = None.
Proof. unfold weekly_notice. by repeat case_match. Qed.

(** When [init_data] has returned, the session holds a table with today's
    row, a day and a count. *)
Lemma init_data_ok_keys now w w1 :
  init_data now w = (Ok tt, w1) →
  ∃ T today c, ss_data w1 = Some T ∧ ss_today w1 = Some today
               ∧ ss_count w1 = Some c.
Proof.
  destruct w as [[T|] [t|] [c|] f e];
    run; repeat (case_match; simpl in *; simplify_eq); intros; simplify_eq;
    eauto 10.
Qed.

(** The page of a run of [main] that returned, from what the session held
    when [init_data] had returned. *)
Lemma main_page now now_cal w page w1 :
  main now now_cal w = (Ok page, w1) →
  ∃ T today c cal_html,
    init_data now w = (Ok tt, w1)
    ∧ ss_data w1 = Some T ∧ ss_today w1 = Some today ∧ ss_count w1 = Some c
    ∧ 0 ≤ c ∧ 0 ≤ compute_weekly_count T
    ∧ render_monthly_calendar now_cal T = Ok cal_html
    ∧ buttons page = seq 0 (length T) ≫= row_buttons.
Proof.
  unfold main, bind.
  destruct (init_data now w) as [[[]|e] w'] eqn:Hinit; [|done].
  destruct (init_data_ok_keys now w w' Hinit) as (T & today & c & HT & Ht & Hc).
  unfold get_key, st_progress, lift_result, ret, raise.
  rewrite HT, Hc, Ht.
  destruct (Z.leb_spec 0 (Z.min c 10)) as [Hc0|]; simpl; [|done].
  destruct (Z.leb_spec (Z.min c 10) 10); simpl; [|done].
  destruct (Z.leb_spec 0 (Z.min (compute_weekly_count T) 100)) as [Hw0|];
    simpl; [|done].
  destruct (Z.leb_spec (Z.min (compute_weekly_count T) 100) 100); simpl; [|done].
  destruct (render_monthly_calendar now_cal T) as [cal_html|e] eqn:Hcal.
  2:{ destruct (0 <? consecutive_streak T); simpl; rewrite ?Hc; done. }
  intros Hpage.
  exists T, today, c, cal_html.
  assert (Hw1 : w1 = w' ∧ ∃ alive : bool, page
    = ((((([Markdown main_container_open; Title title_text] ++ [Columns 2])
         ++ in_column 0
              [Markdown section_open; Subheader today_heading;
               Write ("**Date**: " +:+ today);
               Write ("**Daily Outreach**: " +:+ str c +:+ "/10");
               daily_notice c; Progress (Z.min c 10) 10; Markdown div_close])
        ++ in_column 1
             ([Markdown section_open; Subheader weekly_heading;
               Write ("**Weekly Outreach**: " +:+ str (compute_weekly_count T) +:+ "/100");
               weekly_notice (compute_weekly_count T);
               Progress (Z.min (compute_weekly_count T) 100) 100]
              ++ (if ((75 <=? compute_weekly_count T)
                      && (compute_weekly_count T <? 100))%bool
                  then [Snow] else [])
              ++ [Markdown div_close]))
       ++ [Markdown section_open; Subheader all_days_heading; Write all_days_help]
       ++ concat (imap row_widgets T) ++ [Markdown div_close])
      ++ [Markdown section_open; Subheader past_heading; ShowTable (tail 7 T);
          Write ("**Current Streak:** " +:+ str (consecutive_streak T) +:+ " days")]
      ++ (if alive then [Success msg_streak_alive] else [])
      ++ [Markdown div_close])
     ++ [Markdown cal_html; Markdown div_close]).
  { destruct (0 <? consecutive_streak T).
    - rewrite Hc in Hpage. injection Hpage as <- <-.
      split; [done|]. by exists (10 <=? c).
    - injection Hpage as <- <-. split; [done|]. by exists false. }
  destruct Hw1 as [-> [alive ->]].
  repeat (split; [done || lia|]).
  unfold buttons, in_column. rewrite !omap_app, buttons_of_table. simpl.
  rewrite daily_notice_no_button, weekly_notice_no_button. simpl.
  destruct ((75 <=? compute_weekly_count T) && (compute_weekly_count T <? 100))%bool,
    alive; simpl; by rewrite ?app_nil_r.
Qed.

(** X19: [main] changes the world only through [init_data]: drawing the page
    writes no file, shows no balloons or warning and leaves the table, the
    day and the count of the session as [init_data] left them, whether
    [main] returns or raises. *)
Theorem main_reads_only now now_cal w :
  exec (main now now_cal) w = exec (init_data now) w.
Proof.
  unfold main, exec, bind.
  destruct (init_data now w) as [[[]|e] w']; [|done].
  unfold get_key, st_progress, lift_result, ret, raise. simpl.
  repeat (case_match; simpl in *; simplify_eq); done.
Qed.

(** X20: The buttons of a page [main] returned: a - and a + button for each row
    of the table of the session, in the order of the rows, with keys that
    are all different; the argument of every button is a label of the
    table, and a click on any of them returns without an exception. *)
Theorem main_buttons now now_cal w page w1 :
  main now now_cal w = (Ok page, w1) →
  ∃ T, ss_data w1 = Some T
       ∧ buttons page = seq 0 (length T) ≫= row_buttons
       ∧ NoDup (buttons page).*1.*1
       ∧ ∀ key on_click arg,
           (key, on_click, arg) ∈ buttons page →
           (arg < length T)%nat ∧ fst (click on_click arg w1) = Ok tt.
Proof.
  intros Hmain.
  destruct (main_page now now_cal w page w1 Hmain)
    as (T & today & c & cal_html & _ & HT & Ht & Hc & _ & _ & _ & Hb).
  exists T. split; [done|]. split; [done|]. rewrite Hb. split.
  - rewrite bind_row_keys. apply NoDup_bind.
    + intros i j key _ _. apply row_keys_disjoint.
    + intros i _. apply row_keys_nodup.
    + apply NoDup_seq.
  - intros key on_click arg Hin.
    apply list_elem_of_bind in Hin as (i & Hin & Hi).
    apply elem_of_seq in Hi. unfold row_buttons in Hin.
    assert (Harg : arg = i ∧ (on_click = OnRemove ∨ on_click = OnAdd)).
    { apply elem_of_cons in Hin as [[= -> -> ->]|Hin]; [by split; [|left]|].
      apply list_elem_of_singleton in Hin as [= -> -> ->]. by split; [|right]. }
    destruct Harg as [-> Hcb]. split; [lia|].
    destruct (lookup_lt_is_Some_2 T i ltac:(lia)) as [r Hr].
    destruct Hcb as [-> | ->]; simpl.
    + destruct (Z.lt_ge_cases 0 (count r)) as [Hpos|Hz].
      * by rewrite (remove_outreach_run w1 T i r today HT Hr Ht Hpos).
      * by rewrite (remove_outreach_at_zero w1 T i r HT Hr Hz).
    + by rewrite (add_outreach_run w1 T i r today HT Hr Ht).
Qed.

Lemma main_buttons_witness :
  let T := [mkRow "2024-06-01" 12; mkRow "2024-06-02" 3] in
  let w := mkWorld None None None (Some (to_csv T)) [] in
  ∃ page w1,
    main (mkDate 2024 6 2) (mkDate 2024 6 2) w = (Ok page, w1)
    ∧ (buttons page).*2 = [0; 0; 1; 1]%nat
    ∧ NoDup (buttons page).*1.*1.
Proof.
  intros T w.
  assert (∃ page, main (mkDate 2024 6 2) (mkDate 2024 6 2) w
                  = (Ok page, mkWorld (Some T) (Some "2024-06-02") (Some 3)
                                (Some (to_csv T)) []))
    as (page & Hmain).
  { eexists. vm_compute. reflexivity. }
  destruct (main_buttons _ _ _ _ _ Hmain) as (T' & HT & Hb & Hnd & _).
  eexists page, _. split; [exact Hmain|]. split; [|exact Hnd].
  simpl in HT. injection HT as <-. rewrite Hb. reflexivity.
Defined.

Lemma sum_of_small (T : Table) :
  Forall small_count T →
  0 ≤ sum_of (counts_column T) ≤ Z.of_nat (length T) * count_cap.
Proof.
  induction 1 as [|r l [Hlo Hhi] _ IH]; simpl; [lia|].
  change (sum_of (count r :: counts_column l))
    with (count r + sum_of (counts_column l)).
  lia.
Qed.

(** Seven counts of at most [count_cap] add up to a 64-bit integer, so the
    sum of the week does not wrap. *)
Lemma weekly_count_small (T : Table) :
  Forall small_count T →
  compute_weekly_count T = sum_of (counts_column (tail 7 T))
  ∧ 0 ≤ compute_weekly_count T ≤ int64_max.
Proof.
  intros HT. unfold compute_weekly_count, series_sum.
  assert (Hlen : (length (tail 7 T) ≤ 7)%nat).
  { unfold tail. rewrite length_drop. lia. }
  assert (Hs : Forall small_count (tail 7 T)) by by apply Forall_drop.
  pose proof (sum_of_small _ Hs) as Hsum.
  assert (Hcap : 7 * count_cap ≤ int64_max) by (by vm_compute).
  assert (Hcap0 : 0 ≤ count_cap) by (by vm_compute).
  assert (Hfit : 0 ≤ sum_of (counts_column (tail 7 T)) ≤ int64_max) by nia.
  rewrite wrap64_id; [done|]. unfold int64_min. lia.
Qed.

Lemma weekly_count_nonneg (T : Table) :
  Forall small_count T → 0 ≤ compute_weekly_count T.
Proof. intros HT. by destruct (weekly_count_small T HT) as [_ [? _]]. Qed.

Lemma render_monthly_calendar_ok now (T : Table) :
  1 ≤ month now ≤ 12 → ∃ html, render_monthly_calendar now T = Ok html.
Proof.
  intros Hm.
  destruct (calendar_grid_shape (counts_of T) (year now) (month now) Hm)
    as (grid & _ & _ & Hgrid & _).
  exists (grid_html grid). rewrite render_monthly_calendar_grid. by rewrite Hgrid.
Qed.

(** A run of [main] from what the session holds when [init_data] has
    returned. *)
Lemma main_run now now_cal w w1 T today c :
  init_data now w = (Ok tt, w1) →
  ss_data w1 = Some T → ss_today w1 = Some today → ss_count w1 = Some c →
  0 ≤ c → Forall small_count T → 1 ≤ month now_cal ≤ 12 →
  ∃ page, main now now_cal w = (Ok page, w1).
Proof.
  intros Hinit HT Ht Hc Hc0 Hnn Hm.
  pose proof (weekly_count_nonneg T Hnn) as Hw.
  destruct (render_monthly_calendar_ok now_cal T Hm) as [html Hcal].
  unfold main, bind. rewrite Hinit.
  unfold get_key, st_progress, lift_result, ret, raise.
  rewrite HT, Hc, Ht.
  destruct (Z.leb_spec 0 (Z.min c 10)); [|lia].
  destruct (Z.leb_spec (Z.min c 10) 10); [|lia].
  destruct (Z.leb_spec 0 (Z.min (compute_weekly_count T) 100)); [|lia].
  destruct (Z.leb_spec (Z.min (compute_weekly_count T) 100) 100); [|lia].
  simpl. rewrite Hcal.
  destruct (0 <? consecutive_streak T); rewrite ?Hc; simpl; by eexists.
Qed.

Lemma small_count_new_row today : small_count (new_row today).
Proof. by vm_compute. Qed.

Lemma small_after_init_data now (T : Table) :
  Forall small_count T →
  Forall small_count (if bool_decide (isoformat now ∈ dates T) then T
                      else T ++ [new_row (isoformat now)]).
Proof.
  intros HT. case_bool_decide; [done|].
  apply Forall_app. split; [done|].
  constructor; [apply small_count_new_row|constructor].
Qed.

Lemma main_run_from now now_cal w T :
  table_on_entry w = Ok T → Forall small_count T →
  (ss_today w = None ∧ ss_count w = None) ∨ session_sync w →
  1 ≤ month now_cal ≤ 12 →
  ∃ page, main now now_cal w = (Ok page, exec (init_data now) w).
Proof.
  intros HT Hnn Hsess Hm.
  set (T' := if bool_decide (isoformat now ∈ dates T) then T
             else T ++ [new_row (isoformat now)]).
  assert (Hnn' : Forall small_count T') by by apply small_after_init_data.
  destruct Hsess as [[Ht Hc]|(T0 & today & c & HT0 & Ht & Hc & _ & Hrow)].
  - destruct (init_data_first_session_run now w T HT Ht Hc)
      as (idx & r & Hrun & Hr & _).
    unfold exec. rewrite Hrun. simpl.
    eapply main_run; [exact Hrun|done|done|done| |exact Hnn'|done].
    fold T' in Hr. rewrite Forall_lookup in Hnn'.
    by destruct (Hnn' idx r Hr).
  - assert (T0 = T) as ->.
    { unfold table_on_entry in HT. rewrite HT0 in HT. by injection HT. }
    pose proof (init_data_keeps_session_day now w T today c HT0 Ht Hc) as Hrun.
    unfold exec. rewrite Hrun. simpl.
    eapply main_run; [exact Hrun|done|done|done| |exact Hnn'|done].
    rewrite Forall_forall in Hnn. by destruct (Hnn _ Hrow).
Qed.

(** X21: [main] returns a page whenever every count of the table it starts
    from is from 0 to [count_cap], a seventh of the largest 64-bit integer
    (so that the sum of a week does not wrap), the session is either new or
    shows the count of the row of its day, and the clock gives the calendar
    a month from 1 to 12. *)
Theorem main_returns now now_cal w T :
  table_on_entry w = Ok T → Forall small_count T →
  (ss_today w = None ∧ ss_count w = None) ∨ session_sync w →
  1 ≤ month now_cal ≤ 12 →
  ∃ page, main now now_cal w = (Ok page, exec (init_data now) w).
Proof. apply main_run_from. Qed.

Lemma main_returns_witness :
  let T := [mkRow "2024-06-01" 12; mkRow "2024-06-02" 3] in
  let w := mkWorld None None None (Some (to_csv T)) [] in
  ∃ page, fst (main (mkDate 2024 6 3) (mkDate 2024 6 3) w) = Ok page.
Proof.
  intros T w.
  assert (Hinv : Forall small_count T).
  { repeat constructor; simpl; by vm_compute. }
  destruct (main_returns (mkDate 2024 6 3) (mkDate 2024 6 3) w T eq_refl Hinv
              (or_introl (conj eq_refl eq_refl)) ltac:(simpl; lia))
    as [page Hmain].
  exists page. by rewrite Hmain.
Defined.

(** ** Runs of the page and clicks, one after the other *)

Lemma small_after_init_data_session now w T :
  ss_data w = Some T → Forall small_count T →
  ∃ T', ss_data (exec (init_data now) w) = Some T' ∧ Forall small_count T'.
Proof.
  intros HT Hnn. destruct (init_data_session now w T HT) as (Hd & _ & _).
  eexists. split; [exact Hd|]. by apply small_after_init_data.
Qed.

Lemma small_after_click on_click arg w T :
  ss_data w = Some T → Forall small_count T →
  (on_click = OnAdd → ∀ r, T !! arg = Some r → count r < count_cap) →
  ∃ T', ss_data (exec (click on_click arg) w) = Some T'
        ∧ Forall small_count T'.
Proof.
  intros HT Hnn Hroom. destruct (T !! arg) as [r|] eqn:Hr.
  - assert (Hc : small_count r).
    { rewrite Forall_lookup in Hnn. by apply (Hnn arg r). }
    destruct Hc as [Hlo Hhi].
    destruct on_click; simpl.
    + destruct (Z.lt_ge_cases 0 (count r)) as [Hpos|Hz].
      * eexists. split; [by eapply remove_outreach_table|].
        apply Forall_insert; [done|]. unfold small_count. simpl. lia.
      * exists T. split; [|done]. unfold exec.
        by rewrite (remove_outreach_at_zero w T arg r HT Hr Hz).
    + pose proof (Hroom eq_refl r eq_refl) as Hlt.
      assert (Hcap : count_cap ≤ int64_max) by (by vm_compute).
      eexists. split; [by eapply add_outreach_table|].
      apply Forall_insert; [done|]. unfold small_count. simpl.
      rewrite wrap64_id; unfold int64_min; lia.
  - exists T. split; [|done]. unfold exec. destruct on_click; simpl.
    + by rewrite (remove_outreach_missing w T arg HT Hr).
    + by rewrite (add_outreach_missing w T arg HT Hr).
Qed.

(** X22: The page can always be drawn again.  From a session that shows the
    count of the row of its day over a table whose counts are all from 0 to
    [count_cap], [main] returns a page for any day of the clock and leaves
    such a session; so does a click on a - button, whatever its argument,
    and a click on a + button of a row whose count is below [count_cap];
    the first run of a session on a table with one row per date and such
    counts leaves such a session too. *)
Theorem session_ok_kept :
  (∀ now now_cal w, session_ok w → 1 ≤ month now_cal ≤ 12 →
     ∃ page w', main now now_cal w = (Ok page, w') ∧ session_ok w')
  ∧ (∀ on_click arg w, session_ok w →
       (on_click = OnAdd →
        ∀ T r, ss_data w = Some T → T !! arg = Some r → count r < count_cap) →
       session_ok (exec (click on_click arg) w))
  ∧ (∀ now now_cal w T,
       table_on_entry w = Ok T → Forall small_count T → NoDup (dates T) →
       ss_today w = None → ss_count w = None → 1 ≤ month now_cal ≤ 12 →
       ∃ page w', main now now_cal w = (Ok page, w') ∧ session_ok w').
Proof.
  split; [|split].
  - intros now now_cal w [Hsync (T & HT & Hnn)] Hm.
    assert (Hentry : table_on_entry w = Ok T).
    { unfold table_on_entry. by rewrite HT. }
    destruct (main_run_from now now_cal w T Hentry Hnn (or_intror Hsync) Hm)
      as [page Hmain].
    exists page, (exec (init_data now) w). split; [done|]. split.
    + by apply session_sync_init_data.
    + by eapply small_after_init_data_session.
  - intros on_click arg w [Hsync (T & HT & Hnn)] Hroom. split.
    + destruct on_click; simpl.
      * by apply session_sync_remove_outreach.
      * by apply session_sync_add_outreach.
    + eapply small_after_click; [done|done|].
      intros Hadd r Hr. by apply (Hroom Hadd T r).
  - intros now now_cal w T HT Hnn Hnd Ht Hc Hm.
    destruct (main_run_from now now_cal w T HT Hnn
                (or_introl (conj Ht Hc)) Hm) as [page Hmain].
    exists page, (exec (init_data now) w). split; [done|]. split.
    + by eapply session_sync_first_run.
    + destruct (init_data_table now w T HT) as (Hd & _ & _).
      eexists. split; [exact Hd|]. by apply small_after_init_data.
Qed.

Lemma session_ok_kept_witness :
  let T := [mkRow "2024-06-01" 12; mkRow "2024-06-02" 3] in
  let w := mkWorld None None None (Some (to_csv T)) [] in
  ∃ page w1,
    main (mkDate 2024 6 2) (mkDate 2024 6 2) w = (Ok page, w1)
    ∧ session_ok w1
    ∧ session_ok (exec (click OnAdd 1) w1)
    ∧ ∃ page' w2,
        main (mkDate 2024 6 3) (mkDate 2024 6 3) (exec (click OnAdd 1) w1)
        = (Ok page', w2)
        ∧ session_ok w2.
Proof.
  intros T w.
  destruct session_ok_kept as (Hmain & Hclick & Hfirst).
  assert (Hsmall : Forall small_count T).
  { repeat constructor; simpl; by vm_compute. }
  assert (Hnd : NoDup (dates T)).
  { apply (bool_decide_unpack _). vm_compute. reflexivity. }
  destruct (Hfirst (mkDate 2024 6 2) (mkDate 2024 6 2) w T eq_refl Hsmall Hnd
              eq_refl eq_refl ltac:(simpl; lia)) as (page & w1 & H1 & Hok1).
  assert (Hw1 : w1 = mkWorld (Some T) (Some "2024-06-02") (Some 3)
                       (Some (to_csv T)) []).
  { apply (f_equal snd) in H1. simpl in H1. rewrite <- H1.
    vm_compute. reflexivity. }
  assert (Hroom : OnAdd = OnAdd →
                  ∀ T0 r, ss_data w1 = Some T0 → T0 !! 1%nat = Some r →
                          count r < count_cap).
  { intros _ T0 r HT0 Hr. rewrite Hw1 in HT0. simpl in HT0.
    injection HT0 as <-. injection Hr as <-. by vm_compute. }
  exists page, w1. split; [exact H1|]. split; [exact Hok1|].
  split; [exact (Hclick OnAdd 1%nat w1 Hok1 Hroom)|].
  apply Hmain; [exact (Hclick OnAdd 1%nat w1 Hok1 Hroom)|simpl; lia].
Defined.
